(** * lib/map.ts: map region and driver time / fare estimation

    A shallow embedding of [calculateRegion], [calculateDriverTimes] and
    [calculateDistance] of [lib/map.ts].

    Numbers.  A JavaScript [number] that holds a finite value is a real
    number here, and [NaN] is kept beside the reals ([Js.number]).
    Rounding is left out where it moves a result by a last digit, and
    kept where it changes a result in kind: the argument of the square
    roots of [calculateDistance], which rounding can push out of
    [0, 1] and so make the distance [NaN], carries a relative error
    that is a parameter of the model ([Rounding]).  Overflow is not
    modelled.  A parameter of type [number | null] is an [option R];
    [None] stands for [null], [undefined] and [NaN], which the guards
    of the source ([!x]) cannot tell apart.

    The routing service.  [fetch] and [response.json()] are the only
    effects: a call either throws or gives a body, of which the source
    reads [features], [features[0].properties] and their [time].  Each
    of the three members may be missing; when present, [features] is an
    array of objects and [time] a number.  The requests are logged,
    task by task: the requests of one task are in the order in which
    it issues them, while the tasks of a batch run interleaved, so
    that between tasks only the content of the log is meant.
    [console.log] and [console.error] are left out.

    Also embedded: [generateMarkersFromData] of [lib/map.ts], with the
    values of [Math.random] as a stream, and the expressions of
    [app/(root)/book-ride.tsx] that read an estimate: the look-up of
    the selected driver, the test for incomplete data, the fare and
    the ride time that are stored. *)

From Stdlib Require Import Reals Lra Lia ZArith List String Ascii Bool.
From Stdlib Require Import Permutation.
From Stdlib Require Import DecimalString.
From Stdlib Require HexadecimalString DecimalN DecimalPos.
Import ListNotations.

Local Open Scope R_scope.

(** ** JavaScript values *)

Module Js.

(** [!x] is false exactly for a number that is neither absent nor 0. *)
Definition truthy (x : option R) : option R :=
  match x with
  | Some r => if Req_dec_T r 0 then None else Some r
  | None => None
  end.

Definition falsy (x : option R) : bool :=
  match truthy x with Some _ => false | None => true end.

(** The result of arithmetic: a finite number or [NaN]. *)
Inductive number : Type :=
| NaN
| Fin (r : R).

(** The value read from a property that may be missing: [undefined]
    becomes [NaN] under [+], and both are falsy under [||]. *)
Definition of_prop (x : option R) : number :=
  match x with Some r => Fin r | None => NaN end.

Definition add (a b : number) : number :=
  match a, b with
  | Fin x, Fin y => Fin (x + y)
  | _, _ => NaN
  end.

(** [a / c], [a * c] and [c * a] for a literal [c]. *)
Definition divc (a : number) (c : R) : number :=
  match a with Fin x => Fin (x / c) | NaN => NaN end.

Definition mulc (a : number) (c : R) : number :=
  match a with Fin x => Fin (x * c) | NaN => NaN end.

Definition cmul (c : R) (a : number) : number :=
  match a with Fin x => Fin (c * x) | NaN => NaN end.

(** [a || b] for a member [a] that may be missing and a number [b]. *)
Definition or_else (a : option R) (b : number) : number :=
  match truthy a with Some r => Fin r | None => b end.

End Js.

(** ** calculateRegion *)

Record Region : Type := mkRegion {
  latitude : R;
  longitude : R;
  latitudeDelta : R;
  longitudeDelta : R
}.

Definition defaultRegion : Region :=
  mkRegion 37.78825 (-122.4324) 0.01 0.01.

Definition calculateRegion
  (userLatitude userLongitude : option R)
  (destinationLatitude destinationLongitude : option R) : Region :=
  match Js.truthy userLatitude, Js.truthy userLongitude with
  | Some uLat, Some uLng =>
      match Js.truthy destinationLatitude, Js.truthy destinationLongitude with
      | Some dLat, Some dLng =>
          let minLat := Rmin uLat dLat in
          let maxLat := Rmax uLat dLat in
          let minLng := Rmin uLng dLng in
          let maxLng := Rmax uLng dLng in
          let latitudeDelta := (maxLat - minLat) * 1.3 in
          let longitudeDelta := (maxLng - minLng) * 1.3 in
          let latitude := (uLat + dLat) / 2 in
          let longitude := (uLng + dLng) / 2 in
          mkRegion latitude longitude latitudeDelta longitudeDelta
      | _, _ => mkRegion uLat uLng 0.01 0.01
      end
  | _, _ => defaultRegion
  end.

(** The bounding box of a region: center plus or minus half a delta. *)
Definition strictly_inside (g : Region) (lat lng : R) : Prop :=
  latitude g - latitudeDelta g / 2 < lat < latitude g + latitudeDelta g / 2 /\
  longitude g - longitudeDelta g / 2 < lng < longitude g + longitudeDelta g / 2.

Definition inside (g : Region) (lat lng : R) : Prop :=
  latitude g - latitudeDelta g / 2 <= lat <= latitude g + latitudeDelta g / 2 /\
  longitude g - longitudeDelta g / 2 <= lng <= longitude g + longitudeDelta g / 2.

(** ** calculateDistance *)

(** [Math.atan2 y x] on finite arguments. *)
Definition atan2 (y x : R) : R :=
  if Rlt_dec 0 x then atan (y / x)
  else if Rlt_dec x 0 then
    (if Rle_dec 0 y then atan (y / x) + PI else atan (y / x) - PI)
  else if Rlt_dec 0 y then PI / 2
  else if Rlt_dec y 0 then - (PI / 2)
  else 0.

(** [Math.sqrt]: [NaN] below 0. *)
Definition Math_sqrt (x : R) : Js.number :=
  if Rlt_dec x 0 then Js.NaN else Js.Fin (sqrt x).

Definition Math_atan2 (y x : Js.number) : Js.number :=
  match y, x with
  | Js.Fin y', Js.Fin x' => Js.Fin (atan2 y' x')
  | _, _ => Js.NaN
  end.

(** The relative error of the doubles: where the exact value is [x]
    the code holds [x * (1 + e x)]. *)
Definition Rounding : Type := R -> R.

(** No error. *)
Definition exact : Rounding := fun _ => 0.

(** The exact value of [a]; it lies in [0, 1] ([haversine_a_range]). *)
Definition haversine_a (lat1 lon1 lat2 lon2 : R) : R :=
  let dLat := (lat2 - lat1) * (PI / 180) in
  let dLon := (lon2 - lon1) * (PI / 180) in
  sin (dLat / 2) * sin (dLat / 2) +
  cos (lat1 * (PI / 180)) *
    cos (lat2 * (PI / 180)) *
    sin (dLon / 2) *
    sin (dLon / 2).

(** The double that lines 219 to 224 compute for [a]. *)
Definition computed_a (e : Rounding) (lat1 lon1 lat2 lon2 : R) : R :=
  haversine_a lat1 lon1 lat2 lon2 * (1 + e (haversine_a lat1 lon1 lat2 lon2)).

(** The distance is [NaN] when the double [a] has left [0, 1]. *)
Definition calculateDistance (e : Rounding) (lat1 lon1 lat2 lon2 : R)
  : Js.number :=
  let radius := 6371 in
  let a := computed_a e lat1 lon1 lat2 lon2 in
  let c := Js.cmul 2 (Math_atan2 (Math_sqrt a) (Math_sqrt (1 - a))) in
  let distance := Js.cmul radius c in
  distance.

(** Two places in the range of geographic coordinates: latitudes in
    [-90, 90], longitudes in (-180, 180]. *)
Definition geographic (lat lon : R) : Prop :=
  -90 <= lat <= 90 /\ -180 < lon <= 180.

(** The places differ on the sphere: the latitudes differ, or the
    longitudes differ away from a pole. *)
Definition apart (lat1 lon1 lat2 lon2 : R) : Prop :=
  lat1 <> lat2 \/ (lon1 <> lon2 /\ -90 < lat1 < 90).

(** ** Number.prototype.toFixed(2) *)

Local Open Scope string_scope.

Definition digit_char (k : nat) : ascii := ascii_of_nat (48 + k mod 10).

Definition two_digits (k : nat) : string :=
  String (digit_char (k / 10)) (String (digit_char k) "").

(** The digits of [n] with a point before the last two. *)
Definition render2 (n : Z) : string :=
  NilZero.string_of_uint (N.to_uint (Z.to_N (n / 100))) ++ "." ++
  two_digits (Z.to_nat (n mod 100)).

(** For [0 <= x]: the integer [n] with [n / 100] closest to [x], the
    larger one of two. *)
Definition fixed2 (x : R) : string :=
  render2 (Int_part (x * 100 + / 2)).

(** From 1e21 on [toFixed] prints what [toString] prints: digits, an
    [e+] and the exponent.  A double of that size is an integer; its
    digits are taken to 17 places, where [toString] prints the fewest
    digits that tell the double from its neighbours. *)
Definition decimal (n : Z) : string :=
  NilZero.string_of_uint (N.to_uint (Z.to_N n)).

Fixpoint strip_zeros (s : string) : string :=
  match s with
  | String c rest =>
      match strip_zeros rest with
      | EmptyString => if Ascii.eqb c "0" then EmptyString else String c EmptyString
      | kept => String c kept
      end
  | EmptyString => EmptyString
  end.

Definition significand (digits : string) : string :=
  match digits with
  | String d rest =>
      match strip_zeros rest with
      | EmptyString => String d EmptyString
      | kept => String d (String "." kept)
      end
  | EmptyString => EmptyString
  end.

Definition exponent_form (z : Z) : string :=
  let n := (Z.of_nat (String.length (decimal z)) - 1)%Z in
  let scale := (10 ^ (n - 16))%Z in
  let m := ((z + scale / 2) / scale)%Z in
  let (m', n') :=
    if (m =? 10 ^ 17)%Z then ((10 ^ 16)%Z, (n + 1)%Z) else (m, n) in
  significand (decimal m') ++ "e+" ++ decimal n'.

(** [toFixed(2)] of a number that is not negative. *)
Definition unsigned_fixed2 (x : R) : string :=
  if Rle_dec (10 ^ 21) x then exponent_form (Int_part x) else fixed2 x.

Definition toFixed2 (v : Js.number) : string :=
  match v with
  | Js.NaN => "NaN"
  | Js.Fin x =>
      if Rlt_dec x 0 then "-" ++ unsigned_fixed2 (- x) else unsigned_fixed2 x
  end.

(** The shape of a fixed-point string with exactly two decimals: an
    optional sign, one digit or more, a point, two digits. *)
Definition is_digit (c : ascii) : bool :=
  (48 <=? nat_of_ascii c)%nat && (nat_of_ascii c <=? 57)%nat.

Fixpoint all_digits (s : string) : bool :=
  match s with
  | String c rest => is_digit c && all_digits rest
  | EmptyString => true
  end.

Definition two_digit_tail (s : string) : bool :=
  match s with
  | String d1 (String d2 EmptyString) => is_digit d1 && is_digit d2
  | _ => false
  end.

Fixpoint digits_then_point (s : string) : bool :=
  match s with
  | String c rest =>
      if Ascii.eqb c "." then two_digit_tail rest
      else is_digit c && digits_then_point rest
  | EmptyString => false
  end.

Definition unsigned_two_decimals (s : string) : bool :=
  match s with
  | String c rest => is_digit c && digits_then_point rest
  | EmptyString => false
  end.

Definition two_decimals (s : string) : bool :=
  match s with
  | String c rest =>
      if Ascii.eqb c "-" then unsigned_two_decimals rest
      else unsigned_two_decimals s
  | EmptyString => false
  end.

(** ** Markers *)

Module Marker.

(** [MarkerData]: the members the estimation reads ([id], [latitude],
    [longitude]), the display members it only copies, and the two
    optional members it sets. *)
Record MarkerData : Type := mk {
  id : Z;
  latitude : R;
  longitude : R;
  title : string;
  display : list (string * string);
  time : option Js.number;
  price : option string
}.

(** [{ ...marker, time: t, price: p }] *)
Definition annotate (marker : MarkerData) (t : Js.number) (p : string)
  : MarkerData :=
  mk (id marker) (Marker.latitude marker) (Marker.longitude marker) (title marker)
     (display marker) (Some t) (Some p).

End Marker.

Abbreviation MarkerData := Marker.MarkerData.

(** ** The routing service *)

(** The decoded body of a routing response, as far as the source reads
    it: [features], the first feature's [properties], and their [time].
    [None] is a member that is missing. *)
Record Properties : Type := mkProperties { time : option R }.
Record Feature : Type := mkFeature { properties : option Properties }.
Record GeoJson : Type := mkGeoJson { features : option (list Feature) }.

(** What [await fetch(url)] followed by [await response.json()] gives:
    an exception (network failure, body that is not JSON; a [null] body
    throws as well, at the first member read) or a body. *)
Inductive Fetched : Type :=
| Rejected
| Decoded (data : GeoJson).

Inductive Leg : Type := ToUser | ToDestination.

(** The request of a leg: the way points and the key of the URL. *)
Record Request : Type := mkRequest {
  fromLat : R; fromLng : R; toLat : R; toLng : R; apiKey : string
}.

(** The service answers the call for leg [l] of the task of the
    marker at position [i]; nothing relates two answers. *)
Definition Routing : Type := nat -> Leg -> Fetched.

(** ** Effects: the requests issued, and exceptions *)

Inductive Outcome (A : Type) : Type :=
| Returned (a : A)
| Thrown.
Arguments Returned {A} a.
Arguments Thrown {A}.

(** A computation yields the requests it issued and how it ended.  The
    tasks of [Promise.all] interleave at their [await]s; they share no
    state, so the log lists the requests task by task. *)
Definition M (A : Type) : Type := (list Request * Outcome A)%type.

Definition ret {A} (a : A) : M A := ([], Returned a).

Definition throw {A} : M A := ([], Thrown).

Definition bind {A B} (m : M A) (k : A -> M B) : M B :=
  match m with
  | (l, Returned a) => let (l', r) := k a in ((l ++ l')%list, r)
  | (l, Thrown) => (l, Thrown)
  end.

Definition try_catch {A} (body handler : M A) : M A :=
  match body with
  | (l, Thrown) => let (l', r) := handler in ((l ++ l')%list, r)
  | done => done
  end.

Notation "x <- c ;; k" := (bind c (fun x => k))
  (at level 61, c at next level, right associativity).

Definition fetch_json (w : Routing) (i : nat) (l : Leg) (q : Request)
  : M GeoJson :=
  match w i l with
  | Rejected => ([q], Thrown)
  | Decoded data => ([q], Returned data)
  end.

(** [Promise.all]: the results in the order of the tasks, or the
    rejection of a task. *)
Fixpoint promise_all {A} (tasks : list (M A)) : M (list A) :=
  match tasks with
  | [] => ret []
  | t :: ts =>
      bind t (fun a => bind (promise_all ts) (fun r => ret (a :: r)))
  end.

(** [markers.map((marker) => f marker)], with the position of each
    marker, which names its task. *)
Fixpoint map_from {A B} (f : nat -> A -> B) (i : nat) (xs : list A)
  : list B :=
  match xs with
  | [] => []
  | x :: rest => f i x :: map_from f (S i) rest
  end.

(** ** calculateDriverTimes *)

(** [!data.features || data.features.length === 0] *)
Definition no_features (data : GeoJson) : bool :=
  match features data with
  | None | Some [] => true
  | Some (_ :: _) => false
  end.

(** [data.features[0].properties.time]: a TypeError when the first
    feature has no [properties]. *)
Definition first_time (data : GeoJson) : M (option R) :=
  match features data with
  | Some (f :: _) =>
      match properties f with
      | Some p => ret (time p)
      | None => throw
      end
  | _ => throw
  end.

(** [data.features?.[0]?.properties?.time] *)
Definition chained_time (data : GeoJson) : option R :=
  match features data with
  | Some (f :: _) =>
      match properties f with
      | Some p => time p
      | None => None
      end
  | _ => None
  end.

Section DriverTimes.

Variable rounding : Rounding.
Variable geoapifyAPI : string.
Variable routing : Routing.
Variables userLatitude userLongitude : R.
Variables destinationLatitude destinationLongitude : R.

Definition toUserRequest (marker : MarkerData) : Request :=
  mkRequest (Marker.latitude marker) (Marker.longitude marker)
            userLatitude userLongitude geoapifyAPI.

Definition toDestinationRequest : Request :=
  mkRequest userLatitude userLongitude
            destinationLatitude destinationLongitude geoapifyAPI.

(** The body of the [try] of one marker's task. *)
Definition driverAttempt (i : nat) (marker : MarkerData) : M MarkerData :=
  dataToUser <- fetch_json routing i ToUser (toUserRequest marker) ;;
  if no_features dataToUser then
    let distanceToUser :=
      calculateDistance rounding
        (Marker.latitude marker) (Marker.longitude marker)
        userLatitude userLongitude in
    let timeToUser := Js.mulc (Js.divc distanceToUser 40) 3600 in
    dataToDestination <-
      fetch_json routing i ToDestination toDestinationRequest ;;
    let timeToDestination :=
      Js.or_else (chained_time dataToDestination)
        (Js.mulc
           (Js.divc
              (calculateDistance rounding userLatitude userLongitude
                 destinationLatitude destinationLongitude) 40) 3600) in
    let totalTime := Js.divc (Js.add timeToUser timeToDestination) 60 in
    let price := toFixed2 (Js.mulc totalTime 0.5) in
    ret (Marker.annotate marker totalTime price)
  else
    timeToUser <- first_time dataToUser ;;
    dataToDestination <-
      fetch_json routing i ToDestination toDestinationRequest ;;
    if no_features dataToDestination then
      let distanceToDestination :=
        calculateDistance rounding userLatitude userLongitude
                          destinationLatitude destinationLongitude in
      let timeToDestination := Js.mulc (Js.divc distanceToDestination 40) 3600 in
      let totalTime :=
        Js.divc (Js.add (Js.of_prop timeToUser) timeToDestination) 60 in
      let price := toFixed2 (Js.mulc totalTime 0.5) in
      ret (Marker.annotate marker totalTime price)
    else
      timeToDestination <- first_time dataToDestination ;;
      let totalTime :=
        Js.divc (Js.add (Js.of_prop timeToUser)
                        (Js.of_prop timeToDestination)) 60 in
      let price := toFixed2 (Js.mulc totalTime 0.5) in
      ret (Marker.annotate marker totalTime price).

(** The estimate of both [catch] blocks: the trip alone, at 40 km/h. *)
Definition estimated (marker : MarkerData) : MarkerData :=
  let distance :=
    calculateDistance rounding userLatitude userLongitude
                      destinationLatitude destinationLongitude in
  let estimatedTime := Js.mulc (Js.divc distance 40) 60 in
  let estimatedPrice := toFixed2 (Js.mulc estimatedTime 0.5) in
  Marker.annotate marker estimatedTime estimatedPrice.

(** One marker's task: the [try] and its [catch]. *)
Definition driverTask (i : nat) (marker : MarkerData) : M MarkerData :=
  try_catch (driverAttempt i marker) (ret (estimated marker)).

(** The [catch] of the whole batch, lines 192 to 206, around a body. *)
Definition batchFallback (markers : list MarkerData) : list MarkerData :=
  map estimated markers.

Definition batchCatch (markers : list MarkerData)
  (body : M (list MarkerData)) : M (list MarkerData) :=
  try_catch body (ret (batchFallback markers)).

(** The outer [try], lines 101 to 191, and its [catch]. *)
Definition estimateAll (markers : list MarkerData) : M (list MarkerData) :=
  batchCatch markers
    (let timesPromises := map_from driverTask 0 markers in
     results <- promise_all timesPromises ;;
     ret results).

End DriverTimes.

(** [process.env.EXPO_PUBLIC_GEOAPIFY_API_KEY]: unset, or a string;
    the empty string is falsy as well. *)
Definition credential (key : option string) : option string :=
  match key with
  | Some EmptyString | None => None
  | Some k => Some k
  end.

(** [None] is the bare [return] of the two guards. *)
Definition calculateDriverTimes
  (rounding : Rounding)
  (geoapifyAPI : option string) (routing : Routing)
  (markers : list MarkerData)
  (userLatitude userLongitude : option R)
  (destinationLatitude destinationLongitude : option R)
  : M (option (list MarkerData)) :=
  match Js.truthy userLatitude, Js.truthy userLongitude,
        Js.truthy destinationLatitude, Js.truthy destinationLongitude with
  | Some uLat, Some uLng, Some dLat, Some dLng =>
      match credential geoapifyAPI with
      | None => ret None
      | Some key =>
          results <-
            estimateAll rounding key routing uLat uLng dLat dLng markers ;;
          ret (Some results)
      end
  | _, _, _, _ => ret None
  end.

(** ** Estimates *)

(** [out] is [marker] with a time and the price of that time: the
    other members are those of [marker], and the price is the string
    of the time multiplied by 0.5. *)
Definition estimate_of (marker out : MarkerData) : Prop :=
  Marker.id out = Marker.id marker /\
  Marker.latitude out = Marker.latitude marker /\
  Marker.longitude out = Marker.longitude marker /\
  Marker.title out = Marker.title marker /\
  Marker.display out = Marker.display marker /\
  exists t : Js.number,
    Marker.time out = Some t /\
    Marker.price out = Some (toFixed2 (Js.mulc t 0.5)).

(** [out] is [marker] with the time [t] and the price of [t]. *)
Definition estimate_at (t : Js.number) (marker out : MarkerData) : Prop :=
  Marker.id out = Marker.id marker /\
  Marker.latitude out = Marker.latitude marker /\
  Marker.longitude out = Marker.longitude marker /\
  Marker.title out = Marker.title marker /\
  Marker.display out = Marker.display marker /\
  Marker.time out = Some t /\
  Marker.price out = Some (toFixed2 (Js.mulc t 0.5)).

(** [out] carries a non-negative time and its price, a string with
    exactly two decimals. *)
Definition nonneg_priced (out : MarkerData) : Prop :=
  exists r : R,
    0 <= r /\
    Marker.time out = Some (Js.Fin r) /\
    Marker.price out = Some (toFixed2 (Js.Fin (r * 0.5))) /\
    two_decimals (toFixed2 (Js.Fin (r * 0.5))) = true.

(** Every route the service reports carries a time, not below 0 and
    below 1e21 seconds. *)
Definition reports_usable (routing : Routing) : Prop :=
  forall i l data f fs p,
    routing i l = Decoded data ->
    features data = Some (f :: fs) -> properties f = Some p ->
    exists r : R, time p = Some r /\ 0 <= r < 10 ^ 21.

(** The distances of the trip and of every marker to the rider are
    numbers. *)
Definition distances_finite (e : Rounding) (uLat uLng dLat dLng : R)
  (markers : list MarkerData) : Prop :=
  calculateDistance e uLat uLng dLat dLng <> Js.NaN /\
  Forall (fun marker =>
            calculateDistance e (Marker.latitude marker)
              (Marker.longitude marker) uLat uLng <> Js.NaN) markers.

(** A body with one route of the given [time] member. *)
Definition route (t : option R) : GeoJson :=
  mkGeoJson (Some [mkFeature (Some (mkProperties t))]).

(** A body without routes. *)
Definition empty_body : GeoJson := mkGeoJson (Some []).

(** ** The fallback formula, as the specification words it *)

(** Time in minutes at an average of 40 km/h. *)
Definition fallback_time (distanceKm : Js.number) : Js.number :=
  Js.mulc (Js.divc distanceKm 40) 60.

(** The fare of a time: 0.50 a minute, rounded to 2 decimals. *)
Definition fallback_fare (timeMinutes : Js.number) : string :=
  toFixed2 (Js.mulc timeMinutes 0.5).

(** The time by geometry alone: the great-circle distance from the
    driver to the rider and on to the destination. *)
Definition geometry_time (e : Rounding) (uLat uLng dLat dLng : R)
  (marker : MarkerData) : Js.number :=
  fallback_time
    (Js.add
       (calculateDistance e (Marker.latitude marker) (Marker.longitude marker)
          uLat uLng)
       (calculateDistance e uLat uLng dLat dLng)).

(** The requests of one task: leg A, then at most leg B. *)
Definition task_requests (key : string) (uLat uLng dLat dLng : R)
  (marker : MarkerData) (log : list Request) : Prop :=
  log = [toUserRequest key uLat uLng marker] \/
  log = [toUserRequest key uLat uLng marker;
         toDestinationRequest key uLat uLng dLat dLng].

(** ** Scenarios *)

Definition driver1 : MarkerData :=
  Marker.mk 1 37.78 (-122.42) "James Wilson" [] None None.


(** Every call fails. *)
Definition allRejected : Routing := fun _ _ => Rejected.

(** Every call is answered without routes. *)
Definition allEmpty : Routing := fun _ _ => Decoded empty_body.


(** Every call is answered with a route of [t] seconds. *)
Definition allRouted (t : R) : Routing := fun _ _ => Decoded (route (Some t)).

(** Leg A is answered by [toUser], leg B with a route of [t] seconds. *)
Definition legs (toUser : GeoJson) (t : R) : Routing :=
  fun _ l =>
    match l with
    | ToUser => Decoded toUser
    | ToDestination => Decoded (route (Some t))
    end.

(** ** generateMarkersFromData *)

Module Driver.

(** [Driver]: a row of the driver catalog. *)
Record Driver : Type := mk {
  id : Z;
  first_name : string;
  last_name : string;
  profile_image_url : string;
  car_image_url : string;
  car_seats : Z;
  rating : R
}.

End Driver.

Module Placed.

(** [{ latitude, longitude, title, ...driver }]: a marker before any
    estimate, with the members of the driver it spreads; [Driver]
    declares no [latitude], [longitude] or [title], so the spread
    replaces none of the three. *)
Record Placed : Type := mk {
  latitude : R;
  longitude : R;
  title : string;
  driver : Driver.Driver
}.

End Placed.

(** [Math.random()] is the stream [random] of the values it returns,
    in the order of the calls; the driver at position [k] draws the
    values [2 k] and [2 k + 1]. *)
Fixpoint generateMarkersFrom (random : nat -> R) (k : nat)
  (data : list Driver.Driver) (userLatitude userLongitude : R)
  : list Placed.Placed :=
  match data with
  | [] => []
  | driver :: rest =>
      let latOffset := (random k - 0.5) * 0.01 in
      let lngOffset := (random (S k) - 0.5) * 0.01 in
      Placed.mk (userLatitude + latOffset) (userLongitude + lngOffset)
                (Driver.first_name driver ++ " " ++ Driver.last_name driver)
                driver
      :: generateMarkersFrom random (S (S k)) rest userLatitude userLongitude
  end.

Definition generateMarkersFromData (random : nat -> R)
  (data : list Driver.Driver) (userLatitude userLongitude : R)
  : list Placed.Placed :=
  generateMarkersFrom random 0 data userLatitude userLongitude.

(** ** parseInt and Math.round *)

(** The white space of [parseInt] among the ASCII characters. *)
Definition is_space (c : ascii) : bool :=
  let n := nat_of_ascii c in
  ((9 <=? n)%nat && (n <=? 13)%nat) || (n =? 32)%nat.

Fixpoint trim_start (s : string) : string :=
  match s with
  | String c rest => if is_space c then trim_start rest else s
  | EmptyString => EmptyString
  end.

Fixpoint take_while (p : ascii -> bool) (s : string) : string :=
  match s with
  | String c rest => if p c then String c (take_while p rest) else EmptyString
  | EmptyString => EmptyString
  end.

Definition is_upper_hex (c : ascii) : bool :=
  (65 <=? nat_of_ascii c)%nat && (nat_of_ascii c <=? 70)%nat.

Definition is_hex_digit (c : ascii) : bool :=
  is_digit c || is_upper_hex c ||
  ((97 <=? nat_of_ascii c)%nat && (nat_of_ascii c <=? 102)%nat).

Definition hex_lower (c : ascii) : ascii :=
  if is_upper_hex c then ascii_of_nat (nat_of_ascii c + 32) else c.

Fixpoint string_map (f : ascii -> ascii) (s : string) : string :=
  match s with
  | String c rest => String (f c) (string_map f rest)
  | EmptyString => EmptyString
  end.

(** The sign that [parseInt] reads, and the rest of the string. *)
Definition read_sign (s : string) : bool * string :=
  match s with
  | String c rest =>
      if Ascii.eqb c "-" then (true, rest)
      else if Ascii.eqb c "+" then (false, rest)
      else (false, s)
  | EmptyString => (false, s)
  end.

(** The prefix [0x] or [0X], which makes the radix 16. *)
Definition read_radix (s : string) : bool * string :=
  match s with
  | String c (String x rest) =>
      if Ascii.eqb c "0" && (Ascii.eqb x "x" || Ascii.eqb x "X")
      then (true, rest) else (false, s)
  | _ => (false, s)
  end.

(** [parseInt(s)] without a radix, for a string of ASCII characters:
    [NaN] when no digit follows white space, sign and prefix. *)
Definition parseInt (s : string) : Js.number :=
  let (negative, s1) := read_sign (trim_start s) in
  let (hex, s2) := read_radix s1 in
  let digits := take_while (if hex then is_hex_digit else is_digit) s2 in
  let magnitude : option N :=
    match digits with
    | EmptyString => None
    | _ =>
        if hex then
          option_map N.of_hex_uint
            (HexadecimalString.NilEmpty.uint_of_string
               (string_map hex_lower digits))
        else option_map N.of_uint (NilEmpty.uint_of_string digits)
    end in
  match magnitude with
  | Some n =>
      Js.Fin (if negative then - IZR (Z.of_N n) else IZR (Z.of_N n))
  | None => Js.NaN
  end.

(** [Math.round(x)]: the integer closest to [x], the larger of two. *)
Definition round (x : R) : Z := Int_part (x + / 2).

(** ** The booking screen (book-ride.tsx) *)

(** [!!price] and [!!time] *)
Definition truthy_string (s : option string) : bool :=
  match s with
  | Some (String _ _) => true
  | _ => false
  end.

Definition truthy_number (t : option Js.number) : bool :=
  match t with
  | Some (Js.Fin r) => if Req_dec_T r 0 then false else true
  | _ => false
  end.

(** [drivers?.find((driver) => driver.id === selectedDriver)] *)
Definition driverDetails (drivers : list MarkerData)
  (selectedDriver : option Z) : option MarkerData :=
  match selectedDriver with
  | Some selected =>
      find (fun driver => Z.eqb (Marker.id driver) selected) drivers
  | None => None
  end.

(** [!driverDetails || !driverDetails.price || !driverDetails.time] *)
Definition isDriverDataIncomplete (details : option MarkerData) : bool :=
  match details with
  | None => true
  | Some d =>
      negb (truthy_string (Marker.price d)) ||
      negb (truthy_number (Marker.time d))
  end.

(** [price ? parseInt(price.toString()) * 100 : 0] *)
Definition farePrice (details : MarkerData) : Js.number :=
  if truthy_string (Marker.price details) then
    match Marker.price details with
    | Some p => Js.mulc (parseInt p) 100
    | None => Js.Fin 0
    end
  else Js.Fin 0.

(** [Math.round(time || 0)] *)
Definition rideTime (details : MarkerData) : Z :=
  if truthy_number (Marker.time details) then
    match Marker.time details with
    | Some (Js.Fin r) => round r
    | _ => 0%Z
    end
  else 0%Z.

(** * Properties *)

Local Open Scope R_scope.

(** ** Truthiness *)

Lemma truthy_some (r : R) : r <> 0 -> Js.truthy (Some r) = Some r.
Proof.
  intros H. unfold Js.truthy.
  destruct (Req_dec_T r 0); [contradiction|reflexivity].
Qed.

Lemma truthy_zero : Js.truthy (Some 0) = None.
Proof.
  unfold Js.truthy. destruct (Req_dec_T 0 0) as [_|n]; [reflexivity|now elim n].
Qed.

Lemma truthy_inv (x : option R) (r : R) :
  Js.truthy x = Some r -> x = Some r /\ r <> 0.
Proof.
  unfold Js.truthy. destruct x as [s|]; [|discriminate].
  destruct (Req_dec_T s 0); [discriminate|].
  intros E. injection E as ->. split; [reflexivity|assumption].
Qed.

Lemma falsy_zero : Js.falsy (Some 0) = true.
Proof. unfold Js.falsy. now rewrite truthy_zero. Qed.

(** ** calculateRegion *)

Lemma region_both (uLat uLng dLat dLng : R) :
  uLat <> 0 -> uLng <> 0 -> dLat <> 0 -> dLng <> 0 ->
  calculateRegion (Some uLat) (Some uLng) (Some dLat) (Some dLng) =
  mkRegion ((uLat + dLat) / 2) ((uLng + dLng) / 2)
           ((Rmax uLat dLat - Rmin uLat dLat) * 1.3)
           ((Rmax uLng dLng - Rmin uLng dLng) * 1.3).
Proof.
  intros. unfold calculateRegion. now rewrite !truthy_some.
Qed.

Lemma span_pos (a b : R) : 0 < (Rmax a b - Rmin a b) * 1.3 <-> a <> b.
Proof.
  unfold Rmax, Rmin. destruct (Rle_dec a b); split; intros; lra.
Qed.

Lemma span_nonneg (a b : R) : 0 <= (Rmax a b - Rmin a b) * 1.3.
Proof.
  unfold Rmax, Rmin. destruct (Rle_dec a b); lra.
Qed.

(** The three results of [calculateRegion], by the shape of its input. *)
Lemma region_cases (uLat uLng dLat dLng : option R) :
  (calculateRegion uLat uLng dLat dLng = defaultRegion /\
   (Js.falsy uLat || Js.falsy uLng = true)%bool) \/
  (exists a b, Js.truthy uLat = Some a /\ Js.truthy uLng = Some b /\
     (Js.falsy dLat || Js.falsy dLng = true)%bool /\
     calculateRegion uLat uLng dLat dLng = mkRegion a b 0.01 0.01) \/
  (exists a b c d, Js.truthy uLat = Some a /\ Js.truthy uLng = Some b /\
     Js.truthy dLat = Some c /\ Js.truthy dLng = Some d /\
     calculateRegion uLat uLng dLat dLng =
     mkRegion ((a + c) / 2) ((b + d) / 2)
              ((Rmax a c - Rmin a c) * 1.3) ((Rmax b d - Rmin b d) * 1.3)).
Proof.
  unfold calculateRegion, Js.falsy.
  destruct (Js.truthy uLat) as [a|]; [|left; split; reflexivity].
  destruct (Js.truthy uLng) as [b|]; [|left; split; reflexivity].
  right.
  destruct (Js.truthy dLat) as [c|];
    [|left; exists a, b; repeat split; reflexivity].
  destruct (Js.truthy dLng) as [d|];
    [|left; exists a, b; repeat split; reflexivity].
  right. exists a, b, c, d. repeat split; reflexivity.
Qed.

Lemma region_default (uLat uLng dLat dLng : option R) :
  (Js.falsy uLat || Js.falsy uLng)%bool = true ->
  calculateRegion uLat uLng dLat dLng = defaultRegion.
Proof.
  intros H. unfold calculateRegion, Js.falsy in *.
  destruct (Js.truthy uLat); [|reflexivity].
  destruct (Js.truthy uLng); [discriminate|reflexivity].
Qed.

Lemma region_rider (a b : R) (dLat dLng : option R) :
  a <> 0 -> b <> 0 ->
  (Js.falsy dLat || Js.falsy dLng)%bool = true ->
  calculateRegion (Some a) (Some b) dLat dLng = mkRegion a b 0.01 0.01.
Proof.
  intros Ha Hb H. unfold calculateRegion, Js.falsy in *.
  rewrite !truthy_some by assumption.
  destruct (Js.truthy dLat); [|reflexivity].
  destruct (Js.truthy dLng); [discriminate|reflexivity].
Qed.

(** C8: without a rider latitude or longitude the result is the fixed
    default region (37.78825, -122.4324, deltas 0.01); with a rider
    and without a destination latitude or longitude it is the region
    centered on the rider with deltas 0.01. *)
Theorem calculateRegion_absent (uLat uLng dLat dLng : option R) :
  ((Js.falsy uLat || Js.falsy uLng)%bool = true ->
   calculateRegion uLat uLng dLat dLng =
   mkRegion 37.78825 (-122.4324) 0.01 0.01) /\
  (forall a b : R,
   uLat = Some a -> a <> 0 -> uLng = Some b -> b <> 0 ->
   (Js.falsy dLat || Js.falsy dLng)%bool = true ->
   calculateRegion uLat uLng dLat dLng = mkRegion a b 0.01 0.01).
Proof.
  split.
  - apply region_default.
  - intros a b -> Ha -> Hb. now apply region_rider.
Qed.

Lemma calculateRegion_absent_witness :
  calculateRegion None None None None =
    mkRegion 37.78825 (-122.4324) 0.01 0.01 /\
  calculateRegion (Some 37.7749) (Some (-122.4194)) None None =
    mkRegion 37.7749 (-122.4194) 0.01 0.01.
Proof.
  split.
  - apply (proj1 (calculateRegion_absent None None None None)). reflexivity.
  - apply (proj2 (calculateRegion_absent
                    (Some 37.7749) (Some (-122.4194)) None None));
      try reflexivity; lra.
Defined.

(** A rider and a destination on one parallel: the latitude delta of
    the region is 0, against C5 as it is stated. *)
Lemma calculateRegion_same_latitude_degenerate :
  let g := calculateRegion (Some 37.7749) (Some (-122.4194))
                           (Some 37.7749) (Some (-121.8863)) in
  ~ (0 < latitudeDelta g /\ 0 < longitudeDelta g).
Proof.
  cbv zeta. rewrite region_both by lra. cbn [latitudeDelta longitudeDelta].
  intros [H _]. revert H. unfold Rmax, Rmin.
  destruct (Rle_dec 37.7749 37.7749); lra.
Qed.

(** C5, amended: the deltas of every region are non-negative; both are
    0.01 when a rider or destination coordinate is absent; with all
    four present each delta is 1.3 times the span of its axis, and
    positive exactly when rider and destination differ on that axis. *)
Theorem calculateRegion_deltas (uLat uLng dLat dLng : option R) :
  let g := calculateRegion uLat uLng dLat dLng in
  0 <= latitudeDelta g /\ 0 <= longitudeDelta g /\
  ((Js.falsy uLat || Js.falsy uLng || Js.falsy dLat || Js.falsy dLng)%bool
     = true ->
   latitudeDelta g = 0.01 /\ longitudeDelta g = 0.01) /\
  (forall a b c d : R,
   Js.truthy uLat = Some a -> Js.truthy uLng = Some b ->
   Js.truthy dLat = Some c -> Js.truthy dLng = Some d ->
   latitudeDelta g = 1.3 * (Rmax a c - Rmin a c) /\
   longitudeDelta g = 1.3 * (Rmax b d - Rmin b d) /\
   (0 < latitudeDelta g <-> a <> c) /\ (0 < longitudeDelta g <-> b <> d)).
Proof.
  cbv zeta.
  destruct (region_cases uLat uLng dLat dLng)
    as [[E F]|[(a & b & Ea & Eb & F & E)|(a & b & c & d & Ea & Eb & Ec & Ed & E)]];
    rewrite E; cbn [latitudeDelta longitudeDelta defaultRegion].
  - split; [lra|]. split; [lra|]. split; [intros _; split; lra|].
    intros a b c d Ha Hb. unfold Js.falsy in F. rewrite Ha, Hb in F. discriminate.
  - split; [lra|]. split; [lra|]. split; [intros _; split; lra|].
    intros a' b' c d _ _ Hc Hd. unfold Js.falsy in F. rewrite Hc, Hd in F.
    discriminate.
  - split; [apply span_nonneg|]. split; [apply span_nonneg|]. split.
    + unfold Js.falsy. rewrite Ea, Eb, Ec, Ed. discriminate.
    + intros a' b' c' d' Ha Hb Hc Hd.
      rewrite Ea in Ha. rewrite Eb in Hb. rewrite Ec in Hc. rewrite Ed in Hd.
      injection Ha as <-. injection Hb as <-.
      injection Hc as <-. injection Hd as <-.
      split; [lra|]. split; [lra|]. split; apply span_pos.
Qed.

Lemma calculateRegion_deltas_witness :
  let g := calculateRegion (Some 37.7749) (Some (-122.4194))
                           (Some 37.3382) (Some (-121.8863)) in
  0 < latitudeDelta g /\ 0 < longitudeDelta g.
Proof.
  cbv zeta.
  destruct (calculateRegion_deltas (Some 37.7749) (Some (-122.4194))
              (Some 37.3382) (Some (-121.8863))) as (_ & _ & _ & H).
  destruct (H 37.7749 (-122.4194) 37.3382 (-121.8863)) as (_ & _ & H1 & H2);
    try (apply truthy_some; lra).
  split; [apply H1|apply H2]; lra.
Defined.

(** The same rider and destination are distinct, and the rider is not
    strictly inside the bounding box, against C6 as it is stated. *)
Lemma calculateRegion_same_latitude_not_strict :
  let g := calculateRegion (Some 37.7749) (Some (-122.4194))
                           (Some 37.7749) (Some (-121.8863)) in
  (37.7749, -122.4194) <> (37.7749, -121.8863) /\
  ~ strictly_inside g 37.7749 (-122.4194).
Proof.
  cbv zeta. split.
  - intros E. injection E as E. lra.
  - rewrite region_both by lra. unfold strictly_inside.
    cbn [latitude latitudeDelta longitude longitudeDelta].
    intros [[H1 H2] _]. revert H1 H2. unfold Rmax, Rmin.
    destruct (Rle_dec 37.7749 37.7749); lra.
Qed.

(** C6, amended: for a rider (a, b) and a destination (c, d), all four
    present, the center is the midpoint, each delta is 1.3 times the
    span of its axis, the bounding box contains both points, and it
    contains them strictly when they differ on both axes. *)
Theorem calculateRegion_contains (a b c d : R) :
  a <> 0 -> b <> 0 -> c <> 0 -> d <> 0 ->
  let g := calculateRegion (Some a) (Some b) (Some c) (Some d) in
  latitude g = (a + c) / 2 /\ longitude g = (b + d) / 2 /\
  latitudeDelta g = 1.3 * (Rmax a c - Rmin a c) /\
  longitudeDelta g = 1.3 * (Rmax b d - Rmin b d) /\
  inside g a b /\ inside g c d /\
  (a <> c -> b <> d -> strictly_inside g a b /\ strictly_inside g c d).
Proof.
  intros Ha Hb Hc Hd. cbv zeta. rewrite region_both by assumption.
  unfold inside, strictly_inside.
  cbn [latitude latitudeDelta longitude longitudeDelta].
  unfold Rmax, Rmin.
  destruct (Rle_dec a c), (Rle_dec b d); repeat split; intros; lra.
Qed.

Lemma calculateRegion_contains_witness :
  let g := calculateRegion (Some 37.7749) (Some (-122.4194))
                           (Some 37.3382) (Some (-121.8863)) in
  strictly_inside g 37.7749 (-122.4194) /\
  strictly_inside g 37.3382 (-121.8863).
Proof.
  cbv zeta.
  apply (calculateRegion_contains 37.7749 (-122.4194) 37.3382 (-121.8863));
    lra.
Defined.

(** ** calculateDistance *)

Lemma atan_nonneg (x : R) : 0 <= x -> 0 <= atan x.
Proof.
  intros [H| <-].
  - left. rewrite <- atan_0. now apply atan_increasing.
  - rewrite atan_0. lra.
Qed.

Lemma atan2_nonneg (y x : R) : 0 <= y -> 0 <= atan2 y x.
Proof.
  intros Hy. unfold atan2. pose proof PI_RGT_0 as HPI.
  destruct (Rlt_dec 0 x) as [Hx|Hx].
  - apply atan_nonneg. apply Rmult_le_pos; [assumption|].
    left. now apply Rinv_0_lt_compat.
  - destruct (Rlt_dec x 0) as [Hx'|Hx'].
    + destruct (Rle_dec 0 y); [|contradiction].
      pose proof (atan_bound (y / x)). lra.
    + destruct (Rlt_dec 0 y); [lra|].
      destruct (Rlt_dec y 0); lra.
Qed.

Lemma atan2_pos (y x : R) : 0 < y -> 0 <= x -> 0 < atan2 y x.
Proof.
  intros Hy Hx. unfold atan2. pose proof PI_RGT_0 as HPI.
  destruct (Rlt_dec 0 x) as [Hx'|Hx'].
  - rewrite <- atan_0. apply atan_increasing.
    apply Rmult_lt_0_compat; [assumption|now apply Rinv_0_lt_compat].
  - destruct (Rlt_dec x 0); [lra|].
    destruct (Rlt_dec 0 y); lra.
Qed.

(** The product of the two cosines, by half sum and half difference. *)
Lemma cos_cos_half (u v : R) :
  cos u * cos v =
  cos ((v + u) / 2) * cos ((v + u) / 2) - sin ((v - u) / 2) * sin ((v - u) / 2).
Proof.
  set (p := (v - u) / 2). set (q := (v + u) / 2).
  replace u with (q - p) by (unfold p, q; lra).
  replace v with (q + p) by (unfold p, q; lra).
  rewrite cos_plus, cos_minus.
  pose proof (sin2_cos2 p) as Hp. pose proof (sin2_cos2 q) as Hq.
  unfold Rsqr in Hp, Hq. nra.
Qed.

(** The argument of the square roots is between 0 and 1 for every
    four numbers, also outside the range of latitudes. *)
Lemma haversine_a_range (lat1 lon1 lat2 lon2 : R) :
  0 <= haversine_a lat1 lon1 lat2 lon2 <= 1.
Proof.
  unfold haversine_a.
  set (u := lat1 * (PI / 180)). set (v := lat2 * (PI / 180)).
  replace ((lat2 - lat1) * (PI / 180) / 2) with ((v - u) / 2)
    by (unfold u, v; lra).
  set (s := sin ((lon2 - lon1) * (PI / 180) / 2)).
  rewrite (cos_cos_half u v).
  pose proof (sin2_cos2 ((v - u) / 2)) as Hp.
  pose proof (sin2_cos2 ((v + u) / 2)) as Hq.
  pose proof (sin2_cos2 ((lon2 - lon1) * (PI / 180) / 2)) as Hs.
  fold s in Hs. unfold Rsqr in Hp, Hq, Hs.
  set (sp := sin ((v - u) / 2)) in *. set (cq := cos ((v + u) / 2)) in *.
  set (cp := cos ((v - u) / 2)) in *. set (sq := sin ((v + u) / 2)) in *.
  set (cs := cos ((lon2 - lon1) * (PI / 180) / 2)) in *.
  assert (Ht : 0 <= s * s <= 1) by nra.
  assert (Hsp : 0 <= sp * sp <= 1) by nra.
  assert (Hcq : 0 <= cq * cq <= 1) by nra.
  replace (sp * sp + (cq * cq - sp * sp) * s * s)
    with (sp * sp * (1 - s * s) + cq * cq * (s * s)) by ring.
  split; nra.
Qed.

Lemma atan2_le_half_pi (y x : R) : 0 <= y -> 0 <= x -> atan2 y x <= PI / 2.
Proof.
  intros Hy Hx. unfold atan2. pose proof PI_RGT_0 as HPI.
  destruct (Rlt_dec 0 x).
  - pose proof (atan_bound (y / x)). lra.
  - destruct (Rlt_dec x 0); [lra|].
    destruct (Rlt_dec 0 y); [lra|].
    destruct (Rlt_dec y 0); lra.
Qed.

(** The distance is a number exactly when the double [a] is in
    [0, 1]. *)
Lemma calculateDistance_cases (e : Rounding) (lat1 lon1 lat2 lon2 : R) :
  let a := computed_a e lat1 lon1 lat2 lon2 in
  (0 <= a <= 1 /\
   calculateDistance e lat1 lon1 lat2 lon2
     = Js.Fin (6371 * (2 * atan2 (sqrt a) (sqrt (1 - a))))) \/
  (~ 0 <= a <= 1 /\ calculateDistance e lat1 lon1 lat2 lon2 = Js.NaN).
Proof.
  cbv zeta. unfold calculateDistance, Math_sqrt. cbv zeta.
  set (a := computed_a e lat1 lon1 lat2 lon2).
  destruct (Rlt_dec a 0) as [H0|H0].
  - right. split; [lra|reflexivity].
  - destruct (Rlt_dec (1 - a) 0) as [H1|H1].
    + right. split; [lra|reflexivity].
    + left. split; [lra|reflexivity].
Qed.

Lemma calculateDistance_finite (e : Rounding) (lat1 lon1 lat2 lon2 d : R) :
  calculateDistance e lat1 lon1 lat2 lon2 = Js.Fin d ->
  0 <= computed_a e lat1 lon1 lat2 lon2 <= 1 /\ 0 <= d <= 6371 * PI.
Proof.
  intros E.
  destruct (calculateDistance_cases e lat1 lon1 lat2 lon2) as [[Ha E']|[_ E']];
    rewrite E' in E; [|discriminate].
  injection E as <-. split; [exact Ha|].
  pose proof (atan2_nonneg (sqrt (computed_a e lat1 lon1 lat2 lon2))
                (sqrt (1 - computed_a e lat1 lon1 lat2 lon2)) (sqrt_pos _)).
  pose proof (atan2_le_half_pi (sqrt (computed_a e lat1 lon1 lat2 lon2))
                (sqrt (1 - computed_a e lat1 lon1 lat2 lon2))
                (sqrt_pos _) (sqrt_pos _)).
  lra.
Qed.

Lemma not_NaN_finite (n : Js.number) : n <> Js.NaN -> exists d, n = Js.Fin d.
Proof. destruct n as [|d]; [contradiction|]. now exists d. Qed.

Lemma computed_a_exact (lat1 lon1 lat2 lon2 : R) :
  computed_a exact lat1 lon1 lat2 lon2 = haversine_a lat1 lon1 lat2 lon2.
Proof. unfold computed_a, exact. ring. Qed.

(** Without rounding the distance is a number. *)
Lemma calculateDistance_exact (lat1 lon1 lat2 lon2 : R) :
  calculateDistance exact lat1 lon1 lat2 lon2 <> Js.NaN.
Proof.
  destruct (calculateDistance_cases exact lat1 lon1 lat2 lon2)
    as [[_ E]|[H _]].
  - rewrite E. discriminate.
  - rewrite computed_a_exact in H. elim H. apply haversine_a_range.
Qed.

Lemma sin_nonzero (x : R) : - PI < x < PI -> x <> 0 -> sin x <> 0.
Proof.
  intros [H1 H2] Hx.
  destruct (Rlt_dec 0 x) as [Hp|Hn].
  - pose proof (sin_gt_0 x Hp H2). lra.
  - assert (Hp : 0 < - x) by lra.
    assert (H3 : - x < PI) by lra.
    pose proof (sin_gt_0 (- x) Hp H3) as H. rewrite sin_neg in H. lra.
Qed.

Lemma haversine_a_pos (lat1 lon1 lat2 lon2 : R) :
  geographic lat1 lon1 -> geographic lat2 lon2 ->
  apart lat1 lon1 lat2 lon2 ->
  0 < haversine_a lat1 lon1 lat2 lon2.
Proof.
  intros [Hl1 Hn1] [Hl2 Hn2] Hap. unfold haversine_a. cbv zeta.
  pose proof PI_RGT_0 as HPI.
  assert (Hc1 : 0 <= cos (lat1 * (PI / 180))) by (apply cos_ge_0; nra).
  assert (Hc2 : 0 <= cos (lat2 * (PI / 180))) by (apply cos_ge_0; nra).
  set (sl := sin ((lat2 - lat1) * (PI / 180) / 2)).
  set (sn := sin ((lon2 - lon1) * (PI / 180) / 2)).
  assert (Hsl : 0 <= sl * sl) by nra.
  assert (Hsn : 0 <= sn * sn) by nra.
  destruct (Req_dec_T lat1 lat2) as [E|N].
  - destruct Hap as [Hne|[Hlon Hlat]]; [contradiction|]. subst lat2.
    assert (Hc : 0 < cos (lat1 * (PI / 180))) by (apply cos_gt_0; nra).
    assert (Hs : sn <> 0) by (apply sin_nonzero; nra).
    assert (0 < sn * sn) by nra.
    assert (0 < cos (lat1 * (PI / 180)) * cos (lat1 * (PI / 180))) by nra.
    nra.
  - assert (Hs : sl <> 0) by (apply sin_nonzero; nra).
    assert (0 < sl * sl) by nra.
    assert (0 <= cos (lat1 * (PI / 180)) * cos (lat2 * (PI / 180))) by nra.
    nra.
Qed.


(** Two places that differ are at a distance above 0, when rounding
    does not take a whole value away. *)
Lemma calculateDistance_pos (e : Rounding) (lat1 lon1 lat2 lon2 d : R) :
  geographic lat1 lon1 -> geographic lat2 lon2 ->
  apart lat1 lon1 lat2 lon2 ->
  (forall x, -1 < e x) ->
  calculateDistance e lat1 lon1 lat2 lon2 = Js.Fin d -> 0 < d.
Proof.
  intros G1 G2 Hap He E.
  pose proof (haversine_a_pos _ _ _ _ G1 G2 Hap) as Ha.
  destruct (calculateDistance_cases e lat1 lon1 lat2 lon2) as [[Hc E']|[_ E']];
    rewrite E' in E; [|discriminate].
  injection E as <-.
  assert (Hpos : 0 < computed_a e lat1 lon1 lat2 lon2).
  { unfold computed_a. apply Rmult_lt_0_compat; [exact Ha|].
    specialize (He (haversine_a lat1 lon1 lat2 lon2)). lra. }
  pose proof (atan2_pos (sqrt (computed_a e lat1 lon1 lat2 lon2))
                (sqrt (1 - computed_a e lat1 lon1 lat2 lon2))
                (sqrt_lt_R0 _ Hpos) (sqrt_pos _)).
  lra.
Qed.

Lemma haversine_a_sym (lat1 lon1 lat2 lon2 : R) :
  haversine_a lat1 lon1 lat2 lon2 = haversine_a lat2 lon2 lat1 lon1.
Proof.
  unfold haversine_a. cbv zeta.
  replace ((lat1 - lat2) * (PI / 180) / 2)
    with (- ((lat2 - lat1) * (PI / 180) / 2)) by lra.
  replace ((lon1 - lon2) * (PI / 180) / 2)
    with (- ((lon2 - lon1) * (PI / 180) / 2)) by lra.
  rewrite !sin_neg. ring.
Qed.

(** ** toFixed(2) *)

Lemma is_digit_digit_char (k : nat) : is_digit (digit_char k) = true.
Proof.
  unfold is_digit, digit_char.
  pose proof (Nat.mod_upper_bound k 10 ltac:(lia)) as H.
  rewrite nat_ascii_embedding by lia.
  apply andb_true_intro. split; apply Nat.leb_le; lia.
Qed.

Lemma digit_not_point (c : ascii) : is_digit c = true -> Ascii.eqb c "." = false.
Proof.
  intros H. destruct (Ascii.eqb_spec c "."); [subst c; discriminate|reflexivity].
Qed.

Lemma digit_not_minus (c : ascii) : is_digit c = true -> Ascii.eqb c "-" = false.
Proof.
  intros H. destruct (Ascii.eqb_spec c "-"); [subst c; discriminate|reflexivity].
Qed.

Lemma all_digits_uint (d : Decimal.uint) :
  all_digits (NilEmpty.string_of_uint d) = true.
Proof. induction d; cbn; auto. Qed.

Lemma string_of_uint_digits (d : Decimal.uint) :
  exists c rest, NilZero.string_of_uint d = String c rest /\
                 is_digit c = true /\ all_digits rest = true.
Proof.
  destruct d; cbn;
    eexists; eexists; (split; [reflexivity|]); split;
    try reflexivity; apply all_digits_uint.
Qed.

Lemma digits_then_point_app (s : string) (k : nat) :
  all_digits s = true ->
  digits_then_point (s ++ "." ++ two_digits k) = true.
Proof.
  induction s as [|c rest IH]; cbn [all_digits append]; intros H.
  - change (is_digit (digit_char (k / 10)) && is_digit (digit_char k) = true)%bool.
    now rewrite !is_digit_digit_char.
  - apply andb_prop in H as [Hc Hr].
    cbn [digits_then_point]. rewrite (digit_not_point c Hc), Hc.
    now apply IH.
Qed.

Lemma unsigned_two_decimals_render2 (n : Z) :
  unsigned_two_decimals (render2 n) = true /\
  exists c rest, render2 n = String c rest /\ is_digit c = true.
Proof.
  unfold render2.
  destruct (string_of_uint_digits (N.to_uint (Z.to_N (n / 100))))
    as (c & rest & E & Hc & Hr).
  rewrite E. cbn [append unsigned_two_decimals]. rewrite Hc. split.
  - now apply digits_then_point_app.
  - eauto.
Qed.

Lemma toFixed2_below (x : R) :
  0 <= x < 10 ^ 21 -> toFixed2 (Js.Fin x) = fixed2 x.
Proof.
  intros H. unfold toFixed2, unsigned_fixed2.
  destruct (Rlt_dec x 0); [lra|]. destruct (Rle_dec (10 ^ 21) x); [lra|].
  reflexivity.
Qed.

(** The string of a number below 1e21 in size has exactly two
    decimals. *)
Lemma two_decimals_toFixed2 (x : R) :
  Rabs x < 10 ^ 21 -> two_decimals (toFixed2 (Js.Fin x)) = true.
Proof.
  intros Hx. unfold toFixed2, unsigned_fixed2, fixed2.
  destruct (Rlt_dec x 0).
  - rewrite Rabs_left in Hx by assumption.
    destruct (Rle_dec (10 ^ 21) (- x)); [lra|].
    cbn. apply unsigned_two_decimals_render2.
  - rewrite Rabs_right in Hx by lra.
    destruct (Rle_dec (10 ^ 21) x); [lra|].
    destruct (unsigned_two_decimals_render2 (Int_part (x * 100 + / 2)))
      as (H & c & rest & E & Hc).
    rewrite E in *. unfold two_decimals. now rewrite (digit_not_minus c Hc).
Qed.

Lemma app_nonempty (s t : string) :
  (0 < String.length t)%nat ->
  exists c rest, (s ++ t)%string = String c rest.
Proof.
  intros H. destruct s as [|c s]; cbn [append].
  - destruct t as [|c t]; [cbn in H; lia|eauto].
  - eauto.
Qed.

(** [toFixed(2)] never prints the empty string. *)
Lemma toFixed2_starts (t : Js.number) :
  exists c rest, toFixed2 t = String c rest.
Proof.
  destruct t as [|x]; [cbn; eauto|]. unfold toFixed2, unsigned_fixed2, fixed2.
  destruct (Rlt_dec x 0); [cbn [append]; eauto|].
  destruct (Rle_dec (10 ^ 21) x).
  - unfold exponent_form. cbv zeta.
    destruct (_ =? _)%Z; apply app_nonempty; cbn; lia.
  - destruct (unsigned_two_decimals_render2 (Int_part (x * 100 + / 2)))
      as (_ & c & rest & E & _).
    eauto.
Qed.

Lemma fixed2_at (x : R) (n : Z) :
  IZR n <= x * 100 + / 2 < IZR n + 1 -> fixed2 x = render2 n.
Proof.
  intros H. unfold fixed2. f_equal. symmetry. apply Int_part_spec. lra.
Qed.

(** [(15 * 0.5).toFixed(2)] is ["7.50"], and a tie goes up. *)
Example toFixed2_7_5 : toFixed2 (Js.Fin (15 * 0.5)) = "7.50"%string.
Proof.
  rewrite toFixed2_below by lra.
  rewrite (fixed2_at _ 750); [reflexivity|lra].
Qed.

Example toFixed2_tie : toFixed2 (Js.Fin 0.125) = "0.13"%string.
Proof.
  rewrite toFixed2_below by lra.
  rewrite (fixed2_at _ 13); [reflexivity|lra].
Qed.

Example toFixed2_negative : toFixed2 (Js.Fin (-120)) = "-120.00"%string.
Proof.
  unfold toFixed2, unsigned_fixed2. destruct (Rlt_dec (-120) 0); [|lra].
  destruct (Rle_dec (10 ^ 21) (- -120)); [lra|].
  rewrite (fixed2_at _ 12000); [reflexivity|lra].
Qed.


(** ** One marker's task, path by path *)

Lemma no_features_cons (data : GeoJson) (f : Feature) (fs : list Feature) :
  features data = Some (f :: fs) -> no_features data = false.
Proof. unfold no_features. now intros ->. Qed.

Lemma no_features_cases (data : GeoJson) :
  no_features data = true \/ exists f fs, features data = Some (f :: fs).
Proof.
  unfold no_features. destruct (features data) as [[|f fs]|]; eauto.
Qed.

Section Task.

Variable rounding : Rounding.
Variable geoapifyAPI : string.
Variable routing : Routing.
Variables uLat uLng dLat dLng : R.
Variable i : nat.
Variable marker : MarkerData.

Local Abbreviation task :=
  (driverTask rounding geoapifyAPI routing uLat uLng dLat dLng i marker).
Local Abbreviation trip := (estimated rounding uLat uLng dLat dLng marker).
Local Abbreviation toUser := (toUserRequest geoapifyAPI uLat uLng marker).
Local Abbreviation toDestination :=
  (toDestinationRequest geoapifyAPI uLat uLng dLat dLng).
Local Abbreviation fallbackToUser :=
  (Js.mulc
     (Js.divc
        (calculateDistance rounding (Marker.latitude marker)
           (Marker.longitude marker) uLat uLng) 40) 3600).
Local Abbreviation fallbackToDestination :=
  (Js.mulc (Js.divc (calculateDistance rounding uLat uLng dLat dLng) 40) 3600).

Ltac run_task :=
  unfold driverTask, driverAttempt, fetch_json, first_time, bind, try_catch,
    ret, throw.

(** Leg A throws: the [catch] of the task. *)
Lemma task_toUser_rejected :
  routing i ToUser = Rejected -> task = ([toUser], Returned trip).
Proof. run_task. intros ->. reflexivity. Qed.

(** Leg A has a feature without [properties]: a TypeError, caught. *)
Lemma task_toUser_malformed (dataToUser : GeoJson) (f : Feature) fs :
  routing i ToUser = Decoded dataToUser ->
  features dataToUser = Some (f :: fs) -> properties f = None ->
  task = ([toUser], Returned trip).
Proof.
  run_task. intros -> Hf Hp. unfold no_features. rewrite Hf, Hp. reflexivity.
Qed.

(** Leg A without features, leg B throws. *)
Lemma task_fallback_rejected (dataToUser : GeoJson) :
  routing i ToUser = Decoded dataToUser -> no_features dataToUser = true ->
  routing i ToDestination = Rejected ->
  task = ([toUser; toDestination], Returned trip).
Proof. run_task. intros -> -> ->. reflexivity. Qed.

(** Leg A without features, leg B answered: lines 113 to 135. *)
Lemma task_fallback_answered (dataToUser dataToDestination : GeoJson) :
  routing i ToUser = Decoded dataToUser -> no_features dataToUser = true ->
  routing i ToDestination = Decoded dataToDestination ->
  let totalTime :=
    Js.divc
      (Js.add fallbackToUser
         (Js.or_else (chained_time dataToDestination) fallbackToDestination))
      60 in
  task = ([toUser; toDestination],
          Returned (Marker.annotate marker totalTime
                      (toFixed2 (Js.mulc totalTime 0.5)))).
Proof. run_task. intros -> -> ->. reflexivity. Qed.

(** Leg A routed, leg B throws. *)
Lemma task_routed_rejected (dataToUser : GeoJson) f fs p :
  routing i ToUser = Decoded dataToUser ->
  features dataToUser = Some (f :: fs) -> properties f = Some p ->
  routing i ToDestination = Rejected ->
  task = ([toUser; toDestination], Returned trip).
Proof.
  run_task. intros -> Hf Hp ->. unfold no_features. rewrite Hf, Hp. reflexivity.
Qed.

(** Leg A routed, leg B without features: lines 148 to 162. *)
Lemma task_routed_fallback (dataToUser dataToDestination : GeoJson) f fs p :
  routing i ToUser = Decoded dataToUser ->
  features dataToUser = Some (f :: fs) -> properties f = Some p ->
  routing i ToDestination = Decoded dataToDestination ->
  no_features dataToDestination = true ->
  let totalTime :=
    Js.divc (Js.add (Js.of_prop (time p)) fallbackToDestination) 60 in
  task = ([toUser; toDestination],
          Returned (Marker.annotate marker totalTime
                      (toFixed2 (Js.mulc totalTime 0.5)))).
Proof.
  run_task. intros -> Hf Hp -> Hn.
  rewrite (no_features_cons _ _ _ Hf), Hf, Hp. cbv beta iota.
  rewrite Hn. reflexivity.
Qed.

(** Leg A routed, leg B has a feature without [properties]. *)
Lemma task_routed_malformed (dataToUser dataToDestination : GeoJson)
      f fs p g gs :
  routing i ToUser = Decoded dataToUser ->
  features dataToUser = Some (f :: fs) -> properties f = Some p ->
  routing i ToDestination = Decoded dataToDestination ->
  features dataToDestination = Some (g :: gs) -> properties g = None ->
  task = ([toUser; toDestination], Returned trip).
Proof.
  run_task. intros -> Hf Hp -> Hg Hq. unfold no_features.
  rewrite Hf, Hp, Hg, Hq. reflexivity.
Qed.

(** Both legs routed: lines 139 to 172. *)
Lemma task_routed (dataToUser dataToDestination : GeoJson) f fs p g gs q :
  routing i ToUser = Decoded dataToUser ->
  features dataToUser = Some (f :: fs) -> properties f = Some p ->
  routing i ToDestination = Decoded dataToDestination ->
  features dataToDestination = Some (g :: gs) -> properties g = Some q ->
  let totalTime :=
    Js.divc (Js.add (Js.of_prop (time p)) (Js.of_prop (time q))) 60 in
  task = ([toUser; toDestination],
          Returned (Marker.annotate marker totalTime
                      (toFixed2 (Js.mulc totalTime 0.5)))).
Proof.
  run_task. intros -> Hf Hp -> Hg Hq. unfold no_features.
  rewrite Hf, Hp, Hg, Hq. reflexivity.
Qed.

(** Every task returns, with the requests of leg A and at most leg B,
    the marker with some time and the price of that time. *)
Lemma task_shape :
  exists log t,
    task = (log, Returned (Marker.annotate marker t
                             (toFixed2 (Js.mulc t 0.5)))) /\
    task_requests geoapifyAPI uLat uLng dLat dLng marker log.
Proof.
  unfold task_requests.
  destruct (routing i ToUser) as [|dataToUser] eqn:EA.
  { eexists; eexists. split; [now apply task_toUser_rejected|now left]. }
  destruct (no_features_cases dataToUser) as [NA|(f & fs & FA)].
  - destruct (routing i ToDestination) as [|dataToDestination] eqn:EB;
      eexists; eexists.
    + split; [eapply task_fallback_rejected; eassumption|now right].
    + split; [eapply task_fallback_answered; eassumption|now right].
  - destruct (properties f) as [p|] eqn:PA.
    2:{ eexists; eexists.
        split; [eapply task_toUser_malformed; eassumption|now left]. }
    destruct (routing i ToDestination) as [|dataToDestination] eqn:EB.
    { eexists; eexists.
      split; [eapply task_routed_rejected; eassumption|now right]. }
    destruct (no_features_cases dataToDestination) as [NB|(g & gs & FB)].
    { eexists; eexists.
      split; [eapply task_routed_fallback; eassumption|now right]. }
    destruct (properties g) as [q|] eqn:PB; eexists; eexists.
    + split; [eapply task_routed; eassumption|now right].
    + split; [eapply task_routed_malformed; eassumption|now right].
Qed.

End Task.

(** ** Every task returns an estimate *)

Lemma annotate_estimate_at (marker : MarkerData) (t : Js.number) :
  estimate_at t marker (Marker.annotate marker t (toFixed2 (Js.mulc t 0.5))).
Proof. repeat split. Qed.

Lemma estimate_at_of (t : Js.number) (marker out : MarkerData) :
  estimate_at t marker out -> estimate_of marker out.
Proof.
  intros (H1 & H2 & H3 & H4 & H5 & H6 & H7).
  repeat (split; [assumption|]). now exists t.
Qed.

Lemma nonneg_priced_at (r : R) (marker out : MarkerData) :
  estimate_at (Js.Fin r) marker out -> 0 <= r -> r * 0.5 < 10 ^ 21 ->
  nonneg_priced out.
Proof.
  intros (_ & _ & _ & _ & _ & Ht & Hp) Hr Hb. exists r.
  repeat split; try assumption.
  apply two_decimals_toFixed2. rewrite Rabs_right; lra.
Qed.

Lemma distance_bound (e : Rounding) (lat1 lon1 lat2 lon2 d : R) :
  calculateDistance e lat1 lon1 lat2 lon2 = Js.Fin d -> 0 <= d <= 25484.
Proof.
  intros E. apply calculateDistance_finite in E as [_ H].
  pose proof PI_4. pose proof PI_RGT_0. lra.
Qed.

Lemma chained_time_reported (data : GeoJson) (r : R) :
  chained_time data = Some r ->
  exists f fs p, features data = Some (f :: fs) /\ properties f = Some p /\
                 time p = Some r.
Proof.
  unfold chained_time. destruct (features data) as [[|f fs]|]; try discriminate.
  destruct (properties f) as [p|] eqn:E; [|discriminate]. intros H.
  exists f, fs, p. repeat split; assumption.
Qed.

Lemma or_else_cases (x : option R) (b : Js.number) :
  (exists r, x = Some r /\ r <> 0 /\ Js.or_else x b = Js.Fin r) \/
  Js.or_else x b = b.
Proof.
  unfold Js.or_else. destruct (Js.truthy x) as [r|] eqn:E; [|now right].
  apply truthy_inv in E as [E N]. left. now exists r.
Qed.

Section Fleet.

Variable rounding : Rounding.
Variable geoapifyAPI : string.
Variable routing : Routing.
Variables uLat uLng dLat dLng : R.

Local Abbreviation task :=
  (driverTask rounding geoapifyAPI routing uLat uLng dLat dLng).
Local Abbreviation trip := (estimated rounding uLat uLng dLat dLng).
Local Abbreviation tripTime :=
  (Js.mulc (Js.divc (calculateDistance rounding uLat uLng dLat dLng) 40) 60).

Lemma estimated_estimate_at (marker : MarkerData) :
  estimate_at tripTime marker (trip marker).
Proof. unfold estimated. apply annotate_estimate_at. Qed.

Lemma estimated_nonneg_priced (marker : MarkerData) :
  calculateDistance rounding uLat uLng dLat dLng <> Js.NaN ->
  nonneg_priced (trip marker).
Proof.
  intros H. pose proof (estimated_estimate_at marker) as E.
  apply not_NaN_finite in H as [d Hd]. rewrite Hd in E.
  pose proof (distance_bound _ _ _ _ _ _ Hd).
  cbn [Js.divc Js.mulc] in E.
  apply (nonneg_priced_at _ _ _ E); lra.
Qed.

(** A task never ends in an exception; what it returns is the marker
    with a time and the price of that time, after the request of leg
    A and at most that of leg B; the time is a number not below 0,
    with a price of two decimals, when the reported times are usable
    and the two distances are numbers. *)
Lemma task_returns (i : nat) (marker : MarkerData) :
  exists log out,
    task i marker = (log, Returned out) /\
    estimate_of marker out /\
    task_requests geoapifyAPI uLat uLng dLat dLng marker log /\
    (reports_usable routing ->
     calculateDistance rounding uLat uLng dLat dLng <> Js.NaN ->
     calculateDistance rounding (Marker.latitude marker)
       (Marker.longitude marker) uLat uLng <> Js.NaN ->
     nonneg_priced out).
Proof.
  assert (Htrip :
    forall log, task i marker = (log, Returned (trip marker)) ->
    task_requests geoapifyAPI uLat uLng dLat dLng marker log ->
    exists log out, task i marker = (log, Returned out) /\
      estimate_of marker out /\
      task_requests geoapifyAPI uLat uLng dLat dLng marker log /\
      (reports_usable routing ->
       calculateDistance rounding uLat uLng dLat dLng <> Js.NaN ->
       calculateDistance rounding (Marker.latitude marker)
         (Marker.longitude marker) uLat uLng <> Js.NaN ->
       nonneg_priced out)).
  { intros log E L. exists log, (trip marker). split; [exact E|]. split.
    - eapply estimate_at_of, estimated_estimate_at.
    - split; [exact L|]. intros _ H _. now apply estimated_nonneg_priced. }
  assert (Hany :
    forall log t,
      task i marker = (log, Returned (Marker.annotate marker t
                                        (toFixed2 (Js.mulc t 0.5)))) ->
      task_requests geoapifyAPI uLat uLng dLat dLng marker log ->
      (reports_usable routing ->
       calculateDistance rounding uLat uLng dLat dLng <> Js.NaN ->
       calculateDistance rounding (Marker.latitude marker)
         (Marker.longitude marker) uLat uLng <> Js.NaN ->
       exists r, t = Js.Fin r /\ 0 <= r /\ r * 0.5 < 10 ^ 21) ->
      exists log out, task i marker = (log, Returned out) /\
        estimate_of marker out /\
        task_requests geoapifyAPI uLat uLng dLat dLng marker log /\
        (reports_usable routing ->
         calculateDistance rounding uLat uLng dLat dLng <> Js.NaN ->
         calculateDistance rounding (Marker.latitude marker)
           (Marker.longitude marker) uLat uLng <> Js.NaN ->
         nonneg_priced out)).
  { intros log t E L N. eexists; eexists. split; [exact E|]. split.
    - eapply estimate_at_of, annotate_estimate_at.
    - split; [exact L|]. intros H1 H2 H3.
      destruct (N H1 H2 H3) as (r & -> & Hr & Hb).
      eapply nonneg_priced_at; [apply annotate_estimate_at|assumption..]. }
  unfold task_requests in *.
  destruct (routing i ToUser) as [|dataToUser] eqn:EA.
  { eapply Htrip; [now apply task_toUser_rejected|now left]. }
  destruct (no_features_cases dataToUser) as [NA|(f & fs & FA)].
  - destruct (routing i ToDestination) as [|dataToDestination] eqn:EB.
    { eapply Htrip; [eapply task_fallback_rejected; eassumption|now right]. }
    eapply Hany;
      [eapply task_fallback_answered; eassumption|now right|].
    intros Hrep HD HU.
    apply not_NaN_finite in HD as [v Hv]. apply not_NaN_finite in HU as [u Hu].
    pose proof (distance_bound _ _ _ _ _ _ Hv).
    pose proof (distance_bound _ _ _ _ _ _ Hu).
    rewrite Hu, Hv.
    destruct (or_else_cases (chained_time dataToDestination)
                (Js.mulc (Js.divc (Js.Fin v) 40) 3600))
      as [(r & Hr & _ & ->)| ->].
    + apply chained_time_reported in Hr as (g & gs & q & Hg & Hq & Ht).
      destruct (Hrep _ _ _ _ _ _ EB Hg Hq) as (r' & Hr' & Hpos).
      assert (r' = r) by congruence. subst r'.
      eexists. split; [reflexivity|]. split; lra.
    + eexists. split; [reflexivity|]. split; lra.
  - destruct (properties f) as [p|] eqn:PA.
    2:{ eapply Htrip; [eapply task_toUser_malformed; eassumption|now left]. }
    destruct (routing i ToDestination) as [|dataToDestination] eqn:EB.
    { eapply Htrip; [eapply task_routed_rejected; eassumption|now right]. }
    destruct (no_features_cases dataToDestination) as [NB|(g & gs & FB)].
    + eapply Hany; [eapply task_routed_fallback; eassumption|now right|].
      intros Hrep HD _.
      apply not_NaN_finite in HD as [v Hv].
      pose proof (distance_bound _ _ _ _ _ _ Hv).
      destruct (Hrep _ _ _ _ _ _ EA FA PA) as (r & -> & Hr).
      rewrite Hv. eexists. split; [reflexivity|]. split; lra.
    + destruct (properties g) as [q|] eqn:PB.
      2:{ eapply Htrip; [eapply task_routed_malformed; eassumption|now right]. }
      eapply Hany; [eapply task_routed; eassumption|now right|].
      intros Hrep _ _.
      destruct (Hrep _ _ _ _ _ _ EA FA PA) as (r & -> & Hr).
      destruct (Hrep _ _ _ _ _ _ EB FB PB) as (r' & -> & Hr').
      eexists. split; [reflexivity|]. split; lra.
Qed.

End Fleet.

(** ** Promise.all over the tasks *)

Lemma promise_all_cons {A} (l1 l2 : list Request) (a : A) (r : list A)
      (t : M A) (ts : list (M A)) :
  t = (l1, Returned a) -> promise_all ts = (l2, Returned r) ->
  promise_all (t :: ts) = ((l1 ++ l2)%list, Returned (a :: r)).
Proof.
  intros -> E. cbn [promise_all]. unfold bind at 1. rewrite E.
  unfold bind, ret. now rewrite app_nil_r.
Qed.

Lemma Forall2_snd {A B C} (Q : A -> C -> Prop) (xs : list A)
      (rs : list (B * C)) :
  Forall2 (fun x r => Q x (snd r)) xs rs -> Forall2 Q xs (map snd rs).
Proof. induction 1; cbn [map]; constructor; assumption. Qed.

Lemma Forall2_fst {A B C} (Q : A -> B -> Prop) (xs : list A)
      (rs : list (B * C)) :
  Forall2 (fun x r => Q x (fst r)) xs rs -> Forall2 Q xs (map fst rs).
Proof. induction 1; cbn [map]; constructor; assumption. Qed.

Lemma Forall2_weaken {A B} (P Q : A -> B -> Prop) (xs : list A) (ys : list B) :
  (forall x y, P x y -> Q x y) -> Forall2 P xs ys -> Forall2 Q xs ys.
Proof. intros H. induction 1; constructor; auto. Qed.

Lemma Forall2_right {A B} (Q : B -> Prop) (xs : list A) (ys : list B) :
  Forall2 (fun _ y => Q y) xs ys -> Forall Q ys.
Proof. induction 1; constructor; assumption. Qed.

Section Tasks.

Variable rounding : Rounding.
Variable geoapifyAPI : string.
Variable routing : Routing.
Variables uLat uLng dLat dLng : R.

Local Abbreviation task :=
  (driverTask rounding geoapifyAPI routing uLat uLng dLat dLng).

(** The tasks run one after the other in the log, and each gives its
    own result: what holds of every task holds of every position. *)
Lemma tasks_run (P : MarkerData -> list Request -> MarkerData -> Prop)
      (markers : list MarkerData) :
  (forall i m, In m markers ->
     exists l o, task i m = (l, Returned o) /\ P m l o) ->
  forall k,
  exists results : list (list Request * MarkerData),
    promise_all (map_from task k markers)
      = (List.concat (map fst results), Returned (map snd results)) /\
    Forall2 (fun m r => P m (fst r) (snd r)) markers results.
Proof.
  induction markers as [|marker rest IH]; intros H k.
  - exists []. split; [reflexivity|constructor].
  - destruct (H k marker (in_eq _ _)) as (l & o & E & HP).
    destruct (IH (fun i m Hm => H i m (in_cons _ _ _ Hm)) (S k))
      as (results & E' & F).
    exists ((l, o) :: results). split.
    + cbn [map_from map List.concat fst snd]. now apply promise_all_cons.
    + constructor; assumption.
Qed.

Lemma tasks_some (markers : list MarkerData) (k : nat) :
  exists log outs,
    promise_all (map_from task k markers) = (log, Returned outs).
Proof.
  destruct (tasks_run (fun _ _ _ => True) markers) with (k := k)
    as (results & E & _).
  - intros i m _.
    destruct (task_returns rounding geoapifyAPI routing uLat uLng dLat dLng
                i m) as (l & o & E & _).
    now exists l, o.
  - eauto.
Qed.

(** The result at a position is the result of the task of the marker
    at that position. *)
Lemma tasks_nth (markers : list MarkerData) (k : nat) log outs :
  promise_all (map_from task k markers) = (log, Returned outs) ->
  forall i,
    match nth_error markers i with
    | Some m => exists l o, task (k + i) m = (l, Returned o) /\
                            nth_error outs i = Some o
    | None => nth_error outs i = None
    end.
Proof.
  revert k log outs.
  induction markers as [|marker rest IH]; intros k log outs E i.
  - cbn in E. injection E as _ <-. now destruct i.
  - destruct (task_returns rounding geoapifyAPI routing uLat uLng dLat dLng
                k marker) as (l1 & o & E1 & _).
    destruct (tasks_some rest (S k)) as (l2 & os & E2).
    cbn [map_from] in E.
    rewrite (promise_all_cons _ _ _ _ _ _ E1 E2) in E. injection E as _ <-.
    destruct i as [|i]; cbn [nth_error].
    + exists l1, o. rewrite Nat.add_0_r. now split.
    + specialize (IH (S k) _ _ E2 i).
      replace (k + S i)%nat with (S k + i)%nat by lia. exact IH.
Qed.

End Tasks.

Lemma driverTask_ext
  (e : Rounding) (key : string) (routing routing' : Routing)
  (uLat uLng dLat dLng : R) (i : nat) (marker : MarkerData) :
  (forall l, routing i l = routing' i l) ->
  driverTask e key routing uLat uLng dLat dLng i marker =
  driverTask e key routing' uLat uLng dLat dLng i marker.
Proof.
  intros H. unfold driverTask, driverAttempt, fetch_json. now rewrite !H.
Qed.

(** ** calculateDriverTimes: the guards *)

Lemma calculateDriverTimes_accepted
  (e : Rounding) (key : option string) (k : string) (routing : Routing)
  (markers : list MarkerData) (uLat uLng dLat dLng : option R) (a b c d : R) :
  Js.truthy uLat = Some a -> Js.truthy uLng = Some b ->
  Js.truthy dLat = Some c -> Js.truthy dLng = Some d ->
  credential key = Some k ->
  calculateDriverTimes e key routing markers uLat uLng dLat dLng =
  bind (estimateAll e k routing a b c d markers) (fun r => ret (Some r)).
Proof.
  intros Ha Hb Hc Hd Hk. unfold calculateDriverTimes.
  rewrite Ha, Hb, Hc, Hd, Hk. reflexivity.
Qed.

(** An accepted call is [Promise.all] over the tasks. *)
Lemma calculateDriverTimes_tasks
  (e : Rounding) (key : option string) (k : string) (routing : Routing)
  (markers : list MarkerData) (uLat uLng dLat dLng : option R)
  (a b c d : R) log out :
  Js.truthy uLat = Some a -> Js.truthy uLng = Some b ->
  Js.truthy dLat = Some c -> Js.truthy dLng = Some d ->
  credential key = Some k ->
  promise_all (map_from (driverTask e k routing a b c d) 0 markers)
    = (log, Returned out) ->
  calculateDriverTimes e key routing markers uLat uLng dLat dLng
    = (log, Returned (Some out)).
Proof.
  intros Ha Hb Hc Hd Hk E.
  rewrite (calculateDriverTimes_accepted e key k routing markers
             _ _ _ _ a b c d) by assumption.
  unfold estimateAll, batchCatch. rewrite E. unfold bind, try_catch, ret.
  now rewrite !app_nil_r.
Qed.

Lemma try_catch_thrown {A} (log : list Request) (a : A) :
  try_catch (log, Thrown) (ret a) = (log, Returned a).
Proof. unfold try_catch, ret. now rewrite app_nil_r. Qed.

Lemma estimate_of_id (marker out : MarkerData) :
  estimate_of marker out -> Marker.id out = Marker.id marker.
Proof. now intros [H _]. Qed.


Lemma calculateDriverTimes_guards
  (e : Rounding) (key : option string) (routing : Routing)
  (markers : list MarkerData) (uLat uLng dLat dLng : option R) :
  (Js.falsy uLat || Js.falsy uLng || Js.falsy dLat || Js.falsy dLng)%bool
    = true \/ credential key = None ->
  calculateDriverTimes e key routing markers uLat uLng dLat dLng
    = ([], Returned None).
Proof.
  unfold calculateDriverTimes, Js.falsy.
  destruct (Js.truthy uLat), (Js.truthy uLng), (Js.truthy dLat),
    (Js.truthy dLng); try reflexivity.
  intros [H|H]; [discriminate|]. now rewrite H.
Qed.

(** C4: when a rider coordinate, a destination coordinate or the
    credential is missing, the function returns nothing: no request is
    issued and no marker with a time or a price is built. *)
Theorem calculateDriverTimes_early_exit
  (e : Rounding) (key : option string) (routing : Routing)
  (markers : list MarkerData) (uLat uLng dLat dLng : option R) :
  (Js.falsy uLat || Js.falsy uLng)%bool = true \/
  (Js.falsy dLat || Js.falsy dLng)%bool = true \/
  credential key = None ->
  calculateDriverTimes e key routing markers uLat uLng dLat dLng
    = ([], Returned None).
Proof.
  intros H. apply calculateDriverTimes_guards.
  destruct H as [H|[H|H]]; [left|left|now right].
  - rewrite H. reflexivity.
  - rewrite <- orb_assoc, H. apply orb_true_r.
Qed.

Lemma calculateDriverTimes_early_exit_witness :
  calculateDriverTimes exact (Some "key"%string) allRejected [driver1]
    (Some 37.7749) (Some (-122.4194)) None None = ([], Returned None) /\
  calculateDriverTimes exact None allRejected [driver1]
    (Some 37.7749) (Some (-122.4194)) (Some 37.3382) (Some (-121.8863))
    = ([], Returned None).
Proof.
  split; apply calculateDriverTimes_early_exit.
  - right. left. reflexivity.
  - right. right. reflexivity.
Defined.

(** C9: a coordinate that is exactly 0 counts as absent.  With a rider
    latitude of 0 the region is the default one; with a destination
    longitude of 0 it is the region of the rider with deltas 0.01;
    with any of the four coordinates 0 [calculateDriverTimes] returns
    nothing and issues no request. *)
Theorem zero_coordinate_is_absent :
  (forall uLng dLat dLng : option R,
     calculateRegion (Some 0) uLng dLat dLng = defaultRegion) /\
  (forall (a b : R) (dLat : option R),
     a <> 0 -> b <> 0 ->
     calculateRegion (Some a) (Some b) dLat (Some 0) = mkRegion a b 0.01 0.01) /\
  (forall (e : Rounding) (key : option string) (routing : Routing)
          (markers : list MarkerData) (uLat uLng dLat dLng : option R),
     uLat = Some 0 \/ uLng = Some 0 \/ dLat = Some 0 \/ dLng = Some 0 ->
     calculateDriverTimes e key routing markers uLat uLng dLat dLng
       = ([], Returned None)).
Proof.
  split; [|split].
  - intros. unfold calculateRegion. now rewrite truthy_zero.
  - intros a b dLat Ha Hb.
    apply region_rider; try assumption.
    rewrite falsy_zero. apply orb_true_r.
  - intros e key routing markers uLat uLng dLat dLng H.
    apply calculateDriverTimes_guards. left.
    destruct H as [-> | [-> | [-> | ->]]]; rewrite falsy_zero;
      rewrite ?orb_true_r; reflexivity.
Qed.

Lemma zero_coordinate_is_absent_witness :
  calculateRegion (Some 37.7749) (Some (-122.4194)) (Some 37.3382) (Some 0)
    = mkRegion 37.7749 (-122.4194) 0.01 0.01 /\
  calculateDriverTimes exact (Some "key"%string) allRejected [driver1]
    (Some 37.7749) (Some (-122.4194)) (Some 0) (Some (-121.8863))
    = ([], Returned None).
Proof.
  destruct zero_coordinate_is_absent as (_ & H2 & H3). split.
  - apply H2; lra.
  - apply H3. right. right. left. reflexivity.
Defined.

(** ** calculateDriverTimes: the estimates *)

Lemma Forall2_apply {A B} (C : A -> Prop) (Q : B -> Prop)
      (xs : list A) (ys : list B) :
  Forall2 (fun x y => C x -> Q y) xs ys -> Forall C xs -> Forall Q ys.
Proof.
  induction 1 as [|x y xs ys H _ IH]; intros F; [constructor|].
  inversion F; subst. constructor; auto.
Qed.

(** One entry for each marker, in order; each an estimate of its
    marker, and non-negative with a price of two decimals under the
    two conditions. *)
Lemma tasks_return
  (e : Rounding) (key : string) (routing : Routing) (a b c d : R)
  (markers : list MarkerData) (k : nat) :
  exists log out,
    promise_all (map_from (driverTask e key routing a b c d) k markers)
      = (log, Returned out) /\
    Forall2 estimate_of markers out /\
    (reports_usable routing -> distances_finite e a b c d markers ->
     Forall nonneg_priced out).
Proof.
  destruct (tasks_run e key routing a b c d
              (fun m _ o =>
                 estimate_of m o /\
                 (reports_usable routing ->
                  calculateDistance e a b c d <> Js.NaN ->
                  calculateDistance e (Marker.latitude m)
                    (Marker.longitude m) a b <> Js.NaN ->
                  nonneg_priced o)) markers) with (k := k)
    as (results & E & F).
  - intros i m _.
    destruct (task_returns e key routing a b c d i m)
      as (l & o & E & H & _ & N).
    exists l, o. split; [exact E|]. split; [exact H|exact N].
  - exists (List.concat (map fst results)), (map snd results).
    split; [exact E|]. split.
    + apply Forall2_snd. eapply Forall2_weaken; [|exact F].
      now intros m r [H _].
    + intros Hrep [HD HU].
      apply (Forall2_apply
               (fun m => calculateDistance e (Marker.latitude m)
                           (Marker.longitude m) a b <> Js.NaN)
               nonneg_priced markers); [|exact HU].
      apply Forall2_snd. eapply Forall2_weaken; [|exact F].
      intros m r [_ N] Hm. now apply N.
Qed.







Lemma distances_finite_exact (a b c d : R) (markers : list MarkerData) :
  distances_finite exact a b c d markers.
Proof.
  split; [apply calculateDistance_exact|].
  apply Forall_forall. intros m _. apply calculateDistance_exact.
Qed.


(** ** The resolver of one driver *)

Lemma task_rejected
  (e : Rounding) (key : string) (routing : Routing) (uLat uLng dLat dLng : R)
  (i : nat) (marker : MarkerData) :
  routing i ToUser = Rejected \/ routing i ToDestination = Rejected ->
  exists log,
    driverTask e key routing uLat uLng dLat dLng i marker
      = (log, Returned (estimated e uLat uLng dLat dLng marker)).
Proof.
  intros H.
  destruct (routing i ToUser) as [|dataToUser] eqn:EA.
  { eexists. now apply task_toUser_rejected. }
  destruct H as [H|EB]; [discriminate|].
  destruct (no_features_cases dataToUser) as [NA|(f & fs & FA)].
  { eexists. eapply task_fallback_rejected; eassumption. }
  destruct (properties f) as [p|] eqn:PA; eexists.
  - eapply task_routed_rejected; eassumption.
  - eapply task_toUser_malformed; eassumption.
Qed.

(** C2: the task of a marker never ends in an exception.  Whatever is
    thrown inside its [try] is caught there, and the marker comes back,
    its other members unchanged, with the time of the trip alone,
    (distance(rider, destination) / 40) * 60 minutes, and the price of
    that time; this is so in particular when the call of either leg
    fails, whatever the other leg gave. *)
Theorem driverTask_never_raises
  (e : Rounding) (key : string) (routing : Routing)
  (uLat uLng dLat dLng : R) (i : nat) (marker : MarkerData) :
  let tripTime :=
    Js.mulc (Js.divc (calculateDistance e uLat uLng dLat dLng) 40) 60 in
  (exists log out,
     driverTask e key routing uLat uLng dLat dLng i marker
       = (log, Returned out)) /\
  (forall log,
     driverAttempt e key routing uLat uLng dLat dLng i marker = (log, Thrown) ->
     exists out,
       driverTask e key routing uLat uLng dLat dLng i marker
         = (log, Returned out) /\
       Marker.id out = Marker.id marker /\
       Marker.time out = Some tripTime /\
       Marker.price out = Some (toFixed2 (Js.mulc tripTime 0.5))) /\
  (routing i ToUser = Rejected \/ routing i ToDestination = Rejected ->
   exists log out,
     driverTask e key routing uLat uLng dLat dLng i marker
       = (log, Returned out) /\
     Marker.id out = Marker.id marker /\
     Marker.time out = Some tripTime /\
     Marker.price out = Some (toFixed2 (Js.mulc tripTime 0.5))) /\
  (forall dist,
     calculateDistance e uLat uLng dLat dLng = Js.Fin dist ->
     tripTime = Js.Fin ((dist / 40) * 60)).
Proof.
  cbv zeta.
  pose proof (estimated_estimate_at e uLat uLng dLat dLng marker)
    as (Hid & _ & _ & _ & _ & Ht & Hp).
  split; [|split; [|split]].
  - destruct (task_returns e key routing uLat uLng dLat dLng i marker)
      as (log & out & E & _).
    now exists log, out.
  - intros log E. exists (estimated e uLat uLng dLat dLng marker).
    split; [|now repeat split].
    unfold driverTask. rewrite E. apply try_catch_thrown.
  - intros H.
    destruct (task_rejected e key routing uLat uLng dLat dLng i marker H)
      as (log & E).
    exists log, (estimated e uLat uLng dLat dLng marker).
    split; [exact E|now repeat split].
  - intros dist ->. reflexivity.
Qed.

Lemma driverTask_never_raises_witness :
  exists log out,
    driverTask exact "key" allRejected 37.7749 (-122.4194) 37.3382 (-121.8863)
               0 driver1
    = (log, Returned out) /\
    Marker.id out = 1%Z /\
    Marker.time out
    = Some (Js.mulc
              (Js.divc
                 (calculateDistance exact 37.7749 (-122.4194) 37.3382
                    (-121.8863)) 40) 60).
Proof.
  destruct (driverTask_never_raises exact "key" allRejected 37.7749 (-122.4194)
              37.3382 (-121.8863) 0 driver1) as (_ & _ & H & _).
  destruct H as (log & out & E & Hid & Ht & _); [left; reflexivity|].
  exists log, out. repeat split; assumption.
Defined.

(** ** Degrading to geometry *)

Lemma no_features_chained_time (data : GeoJson) :
  no_features data = true -> chained_time data = None.
Proof.
  unfold no_features, chained_time.
  destruct (features data) as [[|f fs]|]; [reflexivity|discriminate|reflexivity].
Qed.

Lemma legs_sum (u v : Js.number) :
  Js.divc (Js.add (Js.mulc (Js.divc u 40) 3600) (Js.mulc (Js.divc v 40) 3600)) 60
  = fallback_time (Js.add u v).
Proof.
  unfold fallback_time. destruct u as [|u], v as [|v]; try reflexivity.
  cbn. f_equal. lra.
Qed.

Lemma task_geometry
  (e : Rounding) (key : string) (routing : Routing) (uLat uLng dLat dLng : R)
  (i : nat) (marker : MarkerData) :
  (forall l, exists data, routing i l = Decoded data /\
                          no_features data = true) ->
  exists log out,
    driverTask e key routing uLat uLng dLat dLng i marker
      = (log, Returned out) /\
    estimate_at (geometry_time e uLat uLng dLat dLng marker) marker out.
Proof.
  intros H.
  destruct (H ToUser) as (dataToUser & EA & NA).
  destruct (H ToDestination) as (dataToDestination & EB & NB).
  eexists; eexists. split.
  - apply (task_fallback_answered e key routing uLat uLng dLat dLng i marker
             dataToUser dataToDestination EA NA EB).
  - cbv zeta. rewrite (no_features_chained_time _ NB).
    unfold Js.or_else. cbn [Js.truthy]. rewrite legs_sum.
    apply annotate_estimate_at.
Qed.

Lemma geometry_nonneg_priced (e : Rounding) (a b c d : R)
      (marker out : MarkerData) :
  estimate_at (geometry_time e a b c d marker) marker out ->
  calculateDistance e a b c d <> Js.NaN ->
  calculateDistance e (Marker.latitude marker) (Marker.longitude marker) a b
    <> Js.NaN ->
  nonneg_priced out.
Proof.
  intros H HD HU. unfold geometry_time, fallback_time in H.
  apply not_NaN_finite in HD as [v Hv]. apply not_NaN_finite in HU as [u Hu].
  pose proof (distance_bound _ _ _ _ _ _ Hv).
  pose proof (distance_bound _ _ _ _ _ _ Hu).
  rewrite Hu, Hv in H. cbn [Js.add Js.divc Js.mulc] in H.
  apply (nonneg_priced_at _ _ _ H); lra.
Qed.

(** C3: when the service answers every call without routes, every
    marker comes back with the time
    ((distance(driver, rider) + distance(rider, destination)) / 40) * 60
    minutes and the price of that time, the fare of the fallback
    formula on the great-circle distances; with distances that are
    numbers the time is not below 0 and the price has two decimals. *)
Theorem calculateDriverTimes_degrades_to_geometry
  (e : Rounding) (key : option string) (k : string) (routing : Routing)
  (markers : list MarkerData) (a b c d : R) :
  a <> 0 -> b <> 0 -> c <> 0 -> d <> 0 ->
  credential key = Some k ->
  (forall i l, exists data, routing i l = Decoded data /\
                            no_features data = true) ->
  exists log out,
    calculateDriverTimes e key routing markers
      (Some a) (Some b) (Some c) (Some d)
    = (log, Returned (Some out)) /\
    Forall2 (fun marker o =>
               Marker.id o = Marker.id marker /\
               Marker.time o = Some (geometry_time e a b c d marker) /\
               Marker.price o
               = Some (fallback_fare (geometry_time e a b c d marker)))
            markers out /\
    (distances_finite e a b c d markers -> Forall nonneg_priced out).
Proof.
  intros Ha Hb Hc Hd Hk H.
  destruct (tasks_run e k routing a b c d
              (fun m _ o => estimate_at (geometry_time e a b c d m) m o)
              markers) with (k := 0%nat) as (results & E & F).
  - intros i m _.
    destruct (task_geometry e k routing a b c d i m (H i)) as (l & o & E & G).
    now exists l, o.
  - exists (List.concat (map fst results)), (map snd results).
    split; [|split].
    + apply (calculateDriverTimes_tasks e key k routing markers _ _ _ _
               a b c d); try (now apply truthy_some); assumption.
    + apply Forall2_snd. eapply Forall2_weaken; [|exact F].
      intros m r (Hid & _ & _ & _ & _ & Ht & Hp). now repeat split.
    + intros [HD HU].
      apply (Forall2_apply
               (fun m => calculateDistance e (Marker.latitude m)
                           (Marker.longitude m) a b <> Js.NaN)
               nonneg_priced markers); [|exact HU].
      apply Forall2_snd. eapply Forall2_weaken; [|exact F].
      intros m r G Hm. now apply (geometry_nonneg_priced e a b c d m).
Qed.

Lemma calculateDriverTimes_degrades_to_geometry_witness :
  exists log out,
    calculateDriverTimes exact (Some "key"%string) allEmpty [driver1]
      (Some 37.7749) (Some (-122.4194)) (Some 37.3382) (Some (-121.8863))
    = (log, Returned (Some out)) /\
    Forall2 (fun marker o =>
               Marker.time o
               = Some (geometry_time exact 37.7749 (-122.4194) 37.3382
                         (-121.8863) marker))
            [driver1] out /\
    Forall nonneg_priced out.
Proof.
  destruct (calculateDriverTimes_degrades_to_geometry exact
              (Some "key"%string) "key" allEmpty [driver1]
              37.7749 (-122.4194) 37.3382 (-121.8863))
    as (log & out & E & F & N); try lra; try reflexivity.
  - intros i l. exists empty_body. split; reflexivity.
  - exists log, out. split; [exact E|]. split.
    + eapply Forall2_weaken; [|exact F]. now intros m o (_ & Ht & _).
    + apply N, distances_finite_exact.
Defined.

(** ** The two legs *)

Lemma chained_time_first (data : GeoJson) (g : Feature) (gs : list Feature)
      (q : Properties) :
  features data = Some (g :: gs) -> properties g = Some q ->
  chained_time data = time q.
Proof. unfold chained_time. now intros -> ->. Qed.

Lemma or_else_truthy (r : R) (b : Js.number) :
  r <> 0 -> Js.or_else (Some r) b = Js.Fin r.
Proof. intros H. unfold Js.or_else. now rewrite truthy_some. Qed.

Lemma or_else_zero (b : Js.number) : Js.or_else (Some 0) b = b.
Proof. unfold Js.or_else. now rewrite truthy_zero. Qed.

(** C7: leg A comes back without routes and leg B with a route of 600
    seconds.  The marker comes back with the time
    ((distance(driver, rider) / 40) * 3600 + 600) / 60 minutes and the
    price of that time: leg A counts with its fallback, not with 0.
    The fallback is above 0, and the time above the 10 minutes of leg
    B, when driver and rider are two places of the globe that differ
    and rounding does not take the distance away. *)
Theorem driverTask_partial_failure
  (e : Rounding) (key : string) (routing : Routing) (uLat uLng dLat dLng : R)
  (i : nat) (marker : MarkerData)
  (dataToUser dataToDestination : GeoJson)
  (g : Feature) (gs : list Feature) (q : Properties) :
  routing i ToUser = Decoded dataToUser -> no_features dataToUser = true ->
  routing i ToDestination = Decoded dataToDestination ->
  features dataToDestination = Some (g :: gs) ->
  properties g = Some q -> time q = Some 600 ->
  let timeToUser :=
    Js.mulc
      (Js.divc
         (calculateDistance e (Marker.latitude marker)
            (Marker.longitude marker) uLat uLng) 40) 3600 in
  let totalTime := Js.divc (Js.add timeToUser (Js.Fin 600)) 60 in
  exists log out,
    driverTask e key routing uLat uLng dLat dLng i marker
      = (log, Returned out) /\
    Marker.id out = Marker.id marker /\
    Marker.time out = Some totalTime /\
    Marker.price out = Some (toFixed2 (Js.mulc totalTime 0.5)) /\
    (forall dist,
       calculateDistance e (Marker.latitude marker)
         (Marker.longitude marker) uLat uLng = Js.Fin dist ->
       Marker.time out = Some (Js.Fin (((dist / 40) * 3600 + 600) / 60)) /\
       (geographic (Marker.latitude marker) (Marker.longitude marker) ->
        geographic uLat uLng ->
        apart (Marker.latitude marker) (Marker.longitude marker) uLat uLng ->
        (forall x, -1 < e x) ->
        0 < (dist / 40) * 3600 /\
        10 < ((dist / 40) * 3600 + 600) / 60)).
Proof.
  intros EA NA EB FB PB TB. cbv zeta.
  eexists; eexists. split.
  - apply (task_fallback_answered e key routing uLat uLng dLat dLng i marker
             dataToUser dataToDestination EA NA EB).
  - cbv zeta. rewrite (chained_time_first _ _ _ _ FB PB), TB.
    rewrite or_else_truthy by lra.
    destruct (annotate_estimate_at marker
                (Js.divc
                   (Js.add
                      (Js.mulc
                         (Js.divc
                            (calculateDistance e (Marker.latitude marker)
                               (Marker.longitude marker) uLat uLng) 40) 3600)
                      (Js.Fin 600)) 60))
      as (Hid & _ & _ & _ & _ & Ht & Hp).
    split; [exact Hid|]. split; [exact Ht|]. split; [exact Hp|].
    intros dist Hd. split.
    + rewrite Ht, Hd. reflexivity.
    + intros G1 G2 Hap He.
      pose proof (calculateDistance_pos e _ _ _ _ dist G1 G2 Hap He Hd).
      split; lra.
Qed.

Lemma driverTask_partial_failure_witness :
  exists log out dist,
    driverTask exact "key" (legs empty_body 600)
               37.7749 (-122.4194) 37.3382 (-121.8863) 0 driver1
    = (log, Returned out) /\
    Marker.time out = Some (Js.Fin (((dist / 40) * 3600 + 600) / 60)) /\
    10 < ((dist / 40) * 3600 + 600) / 60.
Proof.
  destruct (driverTask_partial_failure exact "key" (legs empty_body 600)
              37.7749 (-122.4194) 37.3382 (-121.8863) 0 driver1
              empty_body (route (Some 600))
              (mkFeature (Some (mkProperties (Some 600)))) []
              (mkProperties (Some 600))
              eq_refl eq_refl eq_refl eq_refl eq_refl eq_refl)
    as (log & out & E & _ & _ & _ & H).
  destruct (not_NaN_finite _
              (calculateDistance_exact 37.78 (-122.42) 37.7749 (-122.4194)))
    as [dist Hd].
  destruct (H dist Hd) as [Ht Hpos].
  exists log, out, dist. split; [exact E|]. split; [exact Ht|].
  apply Hpos; unfold geographic, apart, exact;
    cbn [Marker.latitude Marker.longitude driver1].
  - lra.
  - lra.
  - left. lra.
  - intros _. lra.
Defined.

(** C10: leg B comes back with a route of 0 seconds.  After a routed
    leg A of [tA] seconds the 0 is taken as it is, and the marker comes
    back with the time ([tA] + 0) / 60 minutes; after a leg A without
    routes the 0 is falsy and gives way to the fallback of leg B, and
    the marker comes back with the sum of the two fallback times.  The
    share of leg B in that sum is above 0 when rider and destination
    are two places of the globe that differ. *)
Theorem leg_B_zero_time
  (e : Rounding) (key : string) (routing : Routing) (uLat uLng dLat dLng : R)
  (i : nat) (marker : MarkerData)
  (dataToDestination : GeoJson)
  (g : Feature) (gs : list Feature) (q : Properties) :
  routing i ToDestination = Decoded dataToDestination ->
  features dataToDestination = Some (g :: gs) ->
  properties g = Some q -> time q = Some 0 ->
  let fallbackToUser :=
    Js.mulc
      (Js.divc
         (calculateDistance e (Marker.latitude marker)
            (Marker.longitude marker) uLat uLng) 40) 3600 in
  let fallbackToDestination :=
    Js.mulc (Js.divc (calculateDistance e uLat uLng dLat dLng) 40) 3600 in
  (forall (dataToUser : GeoJson) (f : Feature) (fs : list Feature)
          (p : Properties) (tA : R),
     routing i ToUser = Decoded dataToUser ->
     features dataToUser = Some (f :: fs) ->
     properties f = Some p -> time p = Some tA ->
     let totalTime := Js.Fin ((tA + 0) / 60) in
     exists log out,
       driverTask e key routing uLat uLng dLat dLng i marker
         = (log, Returned out) /\
       Marker.id out = Marker.id marker /\
       Marker.time out = Some totalTime /\
       Marker.price out = Some (toFixed2 (Js.mulc totalTime 0.5))) /\
  (forall dataToUser : GeoJson,
     routing i ToUser = Decoded dataToUser ->
     no_features dataToUser = true ->
     let totalTime :=
       Js.divc (Js.add fallbackToUser fallbackToDestination) 60 in
     exists log out,
       driverTask e key routing uLat uLng dLat dLng i marker
         = (log, Returned out) /\
       Marker.id out = Marker.id marker /\
       Marker.time out = Some totalTime /\
       Marker.price out = Some (toFixed2 (Js.mulc totalTime 0.5)) /\
       (forall dU dD,
          calculateDistance e (Marker.latitude marker)
            (Marker.longitude marker) uLat uLng = Js.Fin dU ->
          calculateDistance e uLat uLng dLat dLng = Js.Fin dD ->
          Marker.time out
          = Some (Js.Fin (((dU / 40) * 3600 + (dD / 40) * 3600) / 60)) /\
          (geographic uLat uLng -> geographic dLat dLng ->
           apart uLat uLng dLat dLng -> (forall x, -1 < e x) ->
           ((dU / 40) * 3600 + 0) / 60
           < ((dU / 40) * 3600 + (dD / 40) * 3600) / 60))).
Proof.
  intros EB FB PB TB. cbv zeta. split.
  - intros dataToUser f fs p tA EA FA PA TA. eexists; eexists. split.
    + apply (task_routed e key routing uLat uLng dLat dLng i marker
               dataToUser dataToDestination f fs p g gs q EA FA PA EB FB PB).
    + cbv zeta. rewrite TA, TB. cbn [Js.of_prop Js.add Js.divc].
      destruct (annotate_estimate_at marker (Js.Fin ((tA + 0) / 60)))
        as (Hid & _ & _ & _ & _ & Ht & Hp).
      now repeat split.
  - intros dataToUser EA NA. eexists; eexists. split.
    + apply (task_fallback_answered e key routing uLat uLng dLat dLng i marker
               dataToUser dataToDestination EA NA EB).
    + cbv zeta. rewrite (chained_time_first _ _ _ _ FB PB), TB.
      rewrite or_else_zero.
      destruct (annotate_estimate_at marker
                  (Js.divc
                     (Js.add
                        (Js.mulc
                           (Js.divc
                              (calculateDistance e (Marker.latitude marker)
                                 (Marker.longitude marker) uLat uLng) 40)
                           3600)
                        (Js.mulc
                           (Js.divc (calculateDistance e uLat uLng dLat dLng)
                              40) 3600)) 60))
        as (Hid & _ & _ & _ & _ & Ht & Hp).
      split; [exact Hid|]. split; [exact Ht|]. split; [exact Hp|].
      intros dU dD HU HD. split.
      * rewrite Ht, HU, HD. reflexivity.
      * intros G1 G2 Hap He.
        pose proof (calculateDistance_pos e _ _ _ _ dD G1 G2 Hap He HD).
        lra.
Qed.

Lemma leg_B_zero_time_witness :
  (exists log out,
     driverTask exact "key" (legs (route (Some 300)) 0)
                37.7749 (-122.4194) 37.3382 (-121.8863) 0 driver1
     = (log, Returned out) /\
     Marker.time out = Some (Js.Fin ((300 + 0) / 60))) /\
  (exists log out,
     driverTask exact "key" (legs empty_body 0)
                37.7749 (-122.4194) 37.3382 (-121.8863) 0 driver1
     = (log, Returned out) /\
     exists dU dD,
       Marker.time out
       = Some (Js.Fin (((dU / 40) * 3600 + (dD / 40) * 3600) / 60)) /\
       ((dU / 40) * 3600 + 0) / 60
       < ((dU / 40) * 3600 + (dD / 40) * 3600) / 60).
Proof.
  split.
  - destruct (leg_B_zero_time exact "key" (legs (route (Some 300)) 0)
                37.7749 (-122.4194) 37.3382 (-121.8863) 0 driver1
                (route (Some 0)) (mkFeature (Some (mkProperties (Some 0)))) []
                (mkProperties (Some 0)) eq_refl eq_refl eq_refl eq_refl)
      as (H1 & _).
    destruct (H1 (route (Some 300))
                (mkFeature (Some (mkProperties (Some 300)))) []
                (mkProperties (Some 300)) 300 eq_refl eq_refl eq_refl eq_refl)
      as (log & out & E & _ & Ht & _).
    now exists log, out.
  - destruct (leg_B_zero_time exact "key" (legs empty_body 0)
                37.7749 (-122.4194) 37.3382 (-121.8863) 0 driver1
                (route (Some 0)) (mkFeature (Some (mkProperties (Some 0)))) []
                (mkProperties (Some 0)) eq_refl eq_refl eq_refl eq_refl)
      as (_ & H2).
    destruct (H2 empty_body eq_refl eq_refl)
      as (log & out & E & _ & _ & _ & H).
    destruct (not_NaN_finite _
                (calculateDistance_exact 37.78 (-122.42) 37.7749 (-122.4194)))
      as [dU HU].
    destruct (not_NaN_finite _
                (calculateDistance_exact 37.7749 (-122.4194) 37.3382
                   (-121.8863))) as [dD HD].
    destruct (H dU dD HU HD) as [Ht Hlt].
    exists log, out. split; [exact E|]. exists dU, dD. split; [exact Ht|].
    apply Hlt; unfold geographic, apart, exact.
    + lra.
    + lra.
    + left. lra.
    + intros _. lra.
Defined.

(** The scenario of the specification: 300 seconds and 600 seconds give
    15 minutes and the price ["7.50"]. *)
Example driverTask_300_600 :
  exists log out,
    driverTask exact "key" (legs (route (Some 300)) 600)
               37.7749 (-122.4194) 37.3382 (-121.8863) 0 driver1
    = (log, Returned out) /\
    Marker.time out = Some (Js.Fin 15) /\
    Marker.price out = Some "7.50"%string.
Proof.
  eexists; eexists. split.
  - apply (task_routed exact "key" (legs (route (Some 300)) 600) _ _ _ _ 0
             driver1
             (route (Some 300)) (route (Some 600)) _ _ _ _ _ _
             eq_refl eq_refl eq_refl eq_refl eq_refl eq_refl).
  - cbn [Marker.time Marker.price Marker.annotate route time Js.of_prop Js.add
           Js.divc Js.mulc].
    replace ((300 + 600) / 60) with 15 by lra.
    split; [reflexivity|]. f_equal. apply toFixed2_7_5.
Qed.

(** * Further properties *)

(** ** generateMarkersFromData *)

Lemma generateMarkersFrom_spec (random : nat -> R) (data : list Driver.Driver)
      (userLatitude userLongitude : R) (k : nat) :
  (forall n, 0 <= random n < 1) ->
  let placed := generateMarkersFrom random k data userLatitude userLongitude in
  map Placed.driver placed = data /\
  Forall (fun p =>
            userLatitude - 0.005 <= Placed.latitude p < userLatitude + 0.005 /\
            userLongitude - 0.005 <= Placed.longitude p
              < userLongitude + 0.005) placed.
Proof.
  intros Hr. cbv zeta. revert k.
  induction data as [|driver rest IH]; intros k; cbn [generateMarkersFrom map].
  - split; constructor.
  - destruct (IH (S (S k))) as [E F]. split; [now rewrite E|].
    constructor; [|exact F]. cbn [Placed.latitude Placed.longitude].
    pose proof (Hr k). pose proof (Hr (S k)). lra.
Qed.

(** X1: with draws of [Math.random] in [0, 1), the markers are the
    drivers themselves, one for each and in order, each placed within
    0.005 degrees of the rider on both axes. *)
Theorem generateMarkersFromData_near_rider
  (random : nat -> R) (data : list Driver.Driver)
  (userLatitude userLongitude : R) :
  (forall n, 0 <= random n < 1) ->
  let placed := generateMarkersFromData random data userLatitude userLongitude in
  List.length placed = List.length data /\
  map Placed.driver placed = data /\
  Forall (fun p =>
            userLatitude - 0.005 <= Placed.latitude p < userLatitude + 0.005 /\
            userLongitude - 0.005 <= Placed.longitude p
              < userLongitude + 0.005) placed.
Proof.
  intros Hr. cbv zeta. unfold generateMarkersFromData.
  destruct (generateMarkersFrom_spec random data userLatitude userLongitude 0 Hr)
    as [E F].
  split; [|split; assumption].
  rewrite <- E at 2. now rewrite length_map.
Qed.

Lemma generateMarkersFromData_near_rider_witness :
  let placed :=
    generateMarkersFromData (fun _ => 0.25)
      [Driver.mk 1 "James" "Wilson" "" "" 4 4.5] 37.7749 (-122.4194) in
  List.length placed = 1%nat /\
  map Placed.driver placed = [Driver.mk 1 "James" "Wilson" "" "" 4 4.5].
Proof.
  destruct (generateMarkersFromData_near_rider (fun _ => 0.25)
              [Driver.mk 1 "James" "Wilson" "" "" 4 4.5] 37.7749 (-122.4194))
    as (L & E & _).
  - intros _. lra.
  - split; assumption.
Defined.

(** ** calculateDistance *)

Lemma haversine_a_same (lat lon : R) : haversine_a lat lon lat lon = 0.
Proof.
  unfold haversine_a. cbv zeta.
  replace ((lat - lat) * (PI / 180) / 2) with 0 by lra.
  replace ((lon - lon) * (PI / 180) / 2) with 0 by lra.
  rewrite sin_0. ring.
Qed.

(** X2: the distance is symmetric, and the distance from a place to
    itself is 0. *)
Theorem calculateDistance_symmetric_zero
  (e : Rounding) (lat1 lon1 lat2 lon2 : R) :
  calculateDistance e lat1 lon1 lat2 lon2
    = calculateDistance e lat2 lon2 lat1 lon1 /\
  calculateDistance e lat1 lon1 lat1 lon1 = Js.Fin 0.
Proof.
  split.
  - unfold calculateDistance, computed_a. cbv zeta.
    now rewrite (haversine_a_sym lat1 lon1 lat2 lon2).
  - assert (Ha : computed_a e lat1 lon1 lat1 lon1 = 0)
      by (unfold computed_a; rewrite haversine_a_same; ring).
    destruct (calculateDistance_cases e lat1 lon1 lat1 lon1) as [[_ E]|[H _]].
    + rewrite E, Ha, Rminus_0_r, sqrt_0, sqrt_1. unfold atan2.
      destruct (Rlt_dec 0 1); [|lra].
      replace (0 / 1) with 0 by lra. rewrite atan_0. f_equal. ring.
    + rewrite Ha in H. elim H. lra.
Qed.

(** X3: the distance is [NaN] exactly when rounding has taken the
    double [a] out of [0, 1], where its exact value always lies;
    otherwise it is a number of kilometers not below 0 and not above
    6371 * PI, half the circumference of the sphere, whatever the four
    numbers are. *)
Theorem calculateDistance_bounds (e : Rounding) (lat1 lon1 lat2 lon2 : R) :
  0 <= haversine_a lat1 lon1 lat2 lon2 <= 1 /\
  match calculateDistance e lat1 lon1 lat2 lon2 with
  | Js.Fin d =>
      0 <= computed_a e lat1 lon1 lat2 lon2 <= 1 /\ 0 <= d <= 6371 * PI
  | Js.NaN => ~ 0 <= computed_a e lat1 lon1 lat2 lon2 <= 1
  end.
Proof.
  split; [apply haversine_a_range|].
  destruct (calculateDistance e lat1 lon1 lat2 lon2) as [|dist] eqn:E.
  - destruct (calculateDistance_cases e lat1 lon1 lat2 lon2)
      as [[_ E']|[H _]]; [congruence|exact H].
  - now apply calculateDistance_finite.
Qed.

(** ** calculateRegion *)

(** X4: with all four coordinates present the region does not depend
    on which of the two places is the rider. *)
Theorem calculateRegion_swap (a b c d : R) :
  a <> 0 -> b <> 0 -> c <> 0 -> d <> 0 ->
  calculateRegion (Some a) (Some b) (Some c) (Some d) =
  calculateRegion (Some c) (Some d) (Some a) (Some b).
Proof.
  intros Ha Hb Hc Hd. rewrite !region_both by assumption.
  rewrite (Rmax_comm c a), (Rmin_comm c a), (Rmax_comm d b), (Rmin_comm d b).
  f_equal; lra.
Qed.

Lemma calculateRegion_swap_witness :
  calculateRegion (Some 37.7749) (Some (-122.4194))
                  (Some 37.3382) (Some (-121.8863)) =
  calculateRegion (Some 37.3382) (Some (-121.8863))
                  (Some 37.7749) (Some (-122.4194)).
Proof.
  apply calculateRegion_swap; lra.
Defined.

(** X5: with all four coordinates present the edges of the bounding
    box lie 15 percent of the span outside the two places, on each
    axis: from min - 0.15 * span to max + 0.15 * span. *)
Theorem calculateRegion_padding (a b c d : R) :
  a <> 0 -> b <> 0 -> c <> 0 -> d <> 0 ->
  let g := calculateRegion (Some a) (Some b) (Some c) (Some d) in
  latitude g - latitudeDelta g / 2
    = Rmin a c - 0.15 * (Rmax a c - Rmin a c) /\
  latitude g + latitudeDelta g / 2
    = Rmax a c + 0.15 * (Rmax a c - Rmin a c) /\
  longitude g - longitudeDelta g / 2
    = Rmin b d - 0.15 * (Rmax b d - Rmin b d) /\
  longitude g + longitudeDelta g / 2
    = Rmax b d + 0.15 * (Rmax b d - Rmin b d).
Proof.
  intros Ha Hb Hc Hd. cbv zeta. rewrite region_both by assumption.
  cbn [latitude latitudeDelta longitude longitudeDelta].
  unfold Rmax, Rmin. destruct (Rle_dec a c), (Rle_dec b d); repeat split; lra.
Qed.

Lemma calculateRegion_padding_witness :
  let g := calculateRegion (Some 37.7749) (Some (-122.4194))
                           (Some 37.3382) (Some (-121.8863)) in
  latitude g - latitudeDelta g / 2
    = Rmin 37.7749 37.3382 - 0.15 * (Rmax 37.7749 37.3382 - Rmin 37.7749 37.3382).
Proof.
  cbv zeta.
  apply (calculateRegion_padding 37.7749 (-122.4194) 37.3382 (-121.8863)); lra.
Defined.

(** ** calculateDriverTimes: requests and isolation *)

(** X6: the promise of [calculateDriverTimes] never rejects: for every
    credential, service, marker list and coordinates the call ends by
    returning, nothing or a list. *)
Theorem calculateDriverTimes_never_rejects
  (e : Rounding) (key : option string) (routing : Routing)
  (markers : list MarkerData) (uLat uLng dLat dLng : option R) :
  exists log result,
    calculateDriverTimes e key routing markers uLat uLng dLat dLng
      = (log, Returned result).
Proof.
  destruct (Js.truthy uLat) as [a|] eqn:Ea;
    [|unfold calculateDriverTimes; rewrite Ea; now eexists; eexists].
  destruct (Js.truthy uLng) as [b|] eqn:Eb;
    [|unfold calculateDriverTimes; rewrite Ea, Eb; now eexists; eexists].
  destruct (Js.truthy dLat) as [c|] eqn:Ec;
    [|unfold calculateDriverTimes; rewrite Ea, Eb, Ec; now eexists; eexists].
  destruct (Js.truthy dLng) as [d|] eqn:Ed;
    [|unfold calculateDriverTimes; rewrite Ea, Eb, Ec, Ed;
      now eexists; eexists].
  destruct (credential key) as [k|] eqn:Ek;
    [|unfold calculateDriverTimes; rewrite Ea, Eb, Ec, Ed, Ek;
      now eexists; eexists].
  destruct (tasks_some e k routing a b c d markers 0) as (log & out & E).
  exists log, (Some out).
  now apply (calculateDriverTimes_tasks e key k routing markers
               uLat uLng dLat dLng a b c d).
Qed.

(** X7: an accepted call issues, for each marker, the request of its
    leg to the rider and then at most the request of the leg from the
    rider to the destination, both with the credential: one or two
    requests for each marker, and no other request. *)
Theorem calculateDriverTimes_requests
  (e : Rounding) (key : option string) (k : string) (routing : Routing)
  (markers : list MarkerData) (a b c d : R) :
  a <> 0 -> b <> 0 -> c <> 0 -> d <> 0 -> credential key = Some k ->
  exists log (logs : list (list Request)) out,
    calculateDriverTimes e key routing markers
      (Some a) (Some b) (Some c) (Some d)
    = (log, Returned (Some out)) /\
    Permutation log (List.concat logs) /\
    Forall2 (fun marker requests =>
               requests = [mkRequest (Marker.latitude marker)
                             (Marker.longitude marker) a b k] \/
               requests = [mkRequest (Marker.latitude marker)
                             (Marker.longitude marker) a b k;
                           mkRequest a b c d k])
            markers logs.
Proof.
  intros Ha Hb Hc Hd Hk.
  destruct (tasks_run e k routing a b c d
              (fun m l _ => task_requests k a b c d m l) markers)
    with (k := 0%nat) as (results & E & F).
  - intros i m _.
    destruct (task_returns e k routing a b c d i m) as (l & o & E & _ & L & _).
    now exists l, o.
  - exists (List.concat (map fst results)), (map fst results),
           (map snd results).
    split; [|split].
    + apply (calculateDriverTimes_tasks e key k routing markers _ _ _ _
               a b c d); try (now apply truthy_some); assumption.
    + apply Permutation_refl.
    + apply Forall2_fst. exact F.
Qed.

Lemma calculateDriverTimes_requests_witness :
  exists log logs out,
    calculateDriverTimes exact (Some "key"%string) (allRouted 300) [driver1]
      (Some 37.7749) (Some (-122.4194)) (Some 37.3382) (Some (-121.8863))
      = (log, Returned (Some out)) /\
    Permutation log (List.concat logs) /\
    List.length logs = 1%nat.
Proof.
  destruct (calculateDriverTimes_requests exact (Some "key"%string) "key"
              (allRouted 300) [driver1]
              37.7749 (-122.4194) 37.3382 (-121.8863))
    as (log & logs & out & E & P & F); try lra; try reflexivity.
  exists log, logs, out. split; [exact E|]. split; [exact P|].
  inversion F as [|m l ms ls _ F']; subst. inversion F'; subst. reflexivity.
Defined.

(** X8: when the call of leg A fails for every marker, exactly one
    request is issued for each marker, the leg from the marker to the
    rider, and every marker comes back, its other members unchanged,
    with the same time (distance(rider, destination) / 40) * 60 and
    the price of that time, whatever the place of the driver. *)
Theorem calculateDriverTimes_service_down
  (e : Rounding) (key : option string) (k : string) (routing : Routing)
  (markers : list MarkerData) (a b c d : R) :
  a <> 0 -> b <> 0 -> c <> 0 -> d <> 0 -> credential key = Some k ->
  (forall i, routing i ToUser = Rejected) ->
  let tripTime := Js.mulc (Js.divc (calculateDistance e a b c d) 40) 60 in
  exists out,
    calculateDriverTimes e key routing markers
      (Some a) (Some b) (Some c) (Some d)
    = (map (toUserRequest k a b) markers, Returned (Some out)) /\
    Forall2 (fun marker o =>
               Marker.id o = Marker.id marker /\
               Marker.latitude o = Marker.latitude marker /\
               Marker.longitude o = Marker.longitude marker /\
               Marker.time o = Some tripTime /\
               Marker.price o = Some (toFixed2 (Js.mulc tripTime 0.5)))
            markers out.
Proof.
  intros Ha Hb Hc Hd Hk H. cbv zeta.
  destruct (tasks_run e k routing a b c d
              (fun m l o =>
                 l = [toUserRequest k a b m] /\
                 estimate_at
                   (Js.mulc (Js.divc (calculateDistance e a b c d) 40) 60) m o)
              markers) with (k := 0%nat) as (results & E & F).
  - intros i m _. eexists; eexists. split.
    + apply task_toUser_rejected, H.
    + split; [reflexivity|apply estimated_estimate_at].
  - exists (map snd results). split.
    + apply (calculateDriverTimes_tasks e key k routing markers _ _ _ _
               a b c d); try (now apply truthy_some); try assumption.
      rewrite E. f_equal. clear E.
      induction F as [|m r ms rs [L _] _ IH]; [reflexivity|].
      cbn [map List.concat]. rewrite L, IH. reflexivity.
    + apply Forall2_snd. eapply Forall2_weaken; [|exact F].
      intros m r [_ (Hid & Hla & Hlo & _ & _ & Ht & Hp)]. now repeat split.
Qed.

Lemma calculateDriverTimes_service_down_witness :
  exists out,
    calculateDriverTimes exact (Some "key"%string) allRejected [driver1]
      (Some 37.7749) (Some (-122.4194)) (Some 37.3382) (Some (-121.8863))
    = ([toUserRequest "key" 37.7749 (-122.4194) driver1],
       Returned (Some out)) /\
    Forall2 (fun marker o =>
               Marker.time o
               = Some (Js.mulc
                         (Js.divc
                            (calculateDistance exact 37.7749 (-122.4194)
                               37.3382 (-121.8863)) 40) 60))
            [driver1] out.
Proof.
  destruct (calculateDriverTimes_service_down exact (Some "key"%string) "key"
              allRejected [driver1] 37.7749 (-122.4194) 37.3382 (-121.8863))
    as (out & E & F); try lra; try reflexivity.
  exists out. split; [exact E|].
  eapply Forall2_weaken; [|exact F]. now intros m o (_ & _ & _ & Ht & _).
Defined.

(** X9: without markers an accepted call returns the empty list and
    issues no request. *)
Theorem calculateDriverTimes_no_markers
  (e : Rounding) (key : option string) (k : string) (routing : Routing)
  (a b c d : R) :
  a <> 0 -> b <> 0 -> c <> 0 -> d <> 0 -> credential key = Some k ->
  calculateDriverTimes e key routing [] (Some a) (Some b) (Some c) (Some d)
    = ([], Returned (Some [])).
Proof.
  intros Ha Hb Hc Hd Hk.
  apply (calculateDriverTimes_tasks e key k routing [] _ _ _ _ a b c d);
    try (now apply truthy_some); try assumption.
  reflexivity.
Qed.

Lemma calculateDriverTimes_no_markers_witness :
  calculateDriverTimes exact (Some "key"%string) allRejected []
    (Some 37.7749) (Some (-122.4194)) (Some 37.3382) (Some (-121.8863))
  = ([], Returned (Some [])).
Proof.
  apply (calculateDriverTimes_no_markers exact (Some "key"%string) "key");
    try lra; reflexivity.
Defined.

(** X10: the entry at a position depends on the answers to the calls
    of that marker alone: two services that answer the calls of the
    marker at position [i] alike give the same entry at [i], whatever
    they answer, or fail to answer, for the other markers. *)
Theorem calculateDriverTimes_isolated
  (e : Rounding) (key : option string) (k : string)
  (routing routing' : Routing)
  (markers : list MarkerData) (a b c d : R) (i : nat) :
  a <> 0 -> b <> 0 -> c <> 0 -> d <> 0 -> credential key = Some k ->
  (forall l, routing i l = routing' i l) ->
  exists log out log' out',
    calculateDriverTimes e key routing markers
      (Some a) (Some b) (Some c) (Some d) = (log, Returned (Some out)) /\
    calculateDriverTimes e key routing' markers
      (Some a) (Some b) (Some c) (Some d) = (log', Returned (Some out')) /\
    nth_error out i = nth_error out' i.
Proof.
  intros Ha Hb Hc Hd Hk H.
  destruct (tasks_some e k routing a b c d markers 0) as (log & out & E).
  destruct (tasks_some e k routing' a b c d markers 0) as (log' & out' & E').
  exists log, out, log', out'.
  split; [apply (calculateDriverTimes_tasks e key k routing markers _ _ _ _
                   a b c d); try (now apply truthy_some); assumption|].
  split; [apply (calculateDriverTimes_tasks e key k routing' markers _ _ _ _
                   a b c d); try (now apply truthy_some); assumption|].
  pose proof (tasks_nth e k routing a b c d markers 0 log out E i) as N.
  pose proof (tasks_nth e k routing' a b c d markers 0 log' out' E' i) as N'.
  destruct (nth_error markers i) as [m|].
  - destruct N as (l & o & T & ->). destruct N' as (l' & o' & T' & ->).
    rewrite (driverTask_ext e k routing routing' a b c d (0 + i) m H) in T.
    congruence.
  - congruence.
Qed.

Lemma calculateDriverTimes_isolated_witness :
  exists log out log' out',
    calculateDriverTimes exact (Some "key"%string) allRejected
      [driver1; driver1]
      (Some 37.7749) (Some (-122.4194)) (Some 37.3382) (Some (-121.8863))
      = (log, Returned (Some out)) /\
    calculateDriverTimes exact (Some "key"%string)
      (fun j l => match j with 0%nat => Rejected | _ => Decoded empty_body end)
      [driver1; driver1]
      (Some 37.7749) (Some (-122.4194)) (Some 37.3382) (Some (-121.8863))
      = (log', Returned (Some out')) /\
    nth_error out 0 = nth_error out' 0.
Proof.
  apply (calculateDriverTimes_isolated exact (Some "key"%string) "key");
    try lra; reflexivity.
Defined.

(** ** From the estimate to the booking *)

Lemma toFixed2_nonempty (t : Js.number) :
  truthy_string (Some (toFixed2 t)) = true.
Proof. destruct (toFixed2_starts t) as (c & rest & ->). reflexivity. Qed.

(** X11: the booking screen holds an estimate for incomplete exactly
    when its time is [NaN] or 0: the price of an estimate is never the
    empty string, so the time alone decides. *)
Theorem isDriverDataIncomplete_estimate (marker out : MarkerData) :
  estimate_of marker out ->
  (isDriverDataIncomplete (Some out) = true <->
   Marker.time out = Some Js.NaN \/ Marker.time out = Some (Js.Fin 0)).
Proof.
  intros (_ & _ & _ & _ & _ & t & Ht & Hp). unfold isDriverDataIncomplete.
  rewrite Ht, Hp, toFixed2_nonempty. cbn [negb orb truthy_number].
  destruct t as [|r].
  - split; [now left|reflexivity].
  - destruct (Req_dec_T r 0) as [->|N]; cbn [negb].
    + split; [now right|reflexivity].
    + split; [discriminate|].
      intros [H|H]; [discriminate|]. injection H as H. contradiction.
Qed.

Lemma isDriverDataIncomplete_estimate_witness :
  isDriverDataIncomplete
    (Some (Marker.annotate driver1 Js.NaN (toFixed2 (Js.mulc Js.NaN 0.5))))
  = true.
Proof.
  apply (isDriverDataIncomplete_estimate driver1).
  - eapply estimate_at_of, annotate_estimate_at.
  - left. reflexivity.
Defined.

Lemma digit_not_space (c : ascii) : is_digit c = true -> is_space c = false.
Proof.
  unfold is_digit, is_space. cbv zeta. intros H.
  apply andb_prop in H as [H1 H2]. apply Nat.leb_le in H1, H2.
  apply orb_false_intro.
  - apply andb_false_intro2. apply Nat.leb_gt. lia.
  - apply Nat.eqb_neq. lia.
Qed.

Lemma digit_not_plus (c : ascii) : is_digit c = true -> Ascii.eqb c "+" = false.
Proof.
  intros H. destruct (Ascii.eqb_spec c "+"); [subst c; discriminate|reflexivity].
Qed.

Lemma not_radix_mark (x : ascii) :
  is_digit x = true \/ x = "."%char ->
  (Ascii.eqb x "x" || Ascii.eqb x "X")%bool = false.
Proof.
  intros H. apply orb_false_intro.
  - destruct (Ascii.eqb_spec x "x"); [subst x|reflexivity].
    destruct H; discriminate.
  - destruct (Ascii.eqb_spec x "X"); [subst x|reflexivity].
    destruct H; discriminate.
Qed.

Lemma take_while_digits (ds tail : string) :
  all_digits ds = true ->
  take_while is_digit (ds ++ String "." tail) = ds.
Proof.
  induction ds as [|c rest IH]; cbn [all_digits append take_while]; intros H.
  - reflexivity.
  - apply andb_prop in H as [Hc Hr]. rewrite Hc. f_equal. now apply IH.
Qed.

Lemma string_of_N_empty_nil (q : N) :
  NilZero.string_of_uint (N.to_uint q) = NilEmpty.string_of_uint (N.to_uint q).
Proof.
  destruct q as [|p]; [reflexivity|]. cbn [N.to_uint].
  pose proof (DecimalPos.Unsigned.to_uint_nonnil p).
  destruct (Pos.to_uint p); [contradiction|reflexivity..].
Qed.

(** [parseInt] reads the digits before the point of a string that
    [toFixed(2)] has printed. *)
Lemma parseInt_render2 (z : Z) :
  (0 <= z)%Z -> parseInt (render2 z) = Js.Fin (IZR (z / 100)).
Proof.
  intros Hz. unfold render2.
  set (q := Z.to_N (z / 100)). set (tail := two_digits (Z.to_nat (z mod 100))).
  destruct (string_of_uint_digits (N.to_uint q)) as (c & rest & E & Hc & Hr).
  assert (Hd : all_digits (String c rest) = true)
    by (cbn [all_digits]; now rewrite Hc, Hr).
  change (NilZero.string_of_uint (N.to_uint q) ++ "." ++ tail)%string
    with (NilZero.string_of_uint (N.to_uint q) ++ String "." tail)%string.
  unfold parseInt.
  assert (Hs : read_sign
                 (trim_start (NilZero.string_of_uint (N.to_uint q)
                              ++ String "." tail))
               = (false, (NilZero.string_of_uint (N.to_uint q)
                          ++ String "." tail)%string)).
  { rewrite E. cbn [append trim_start]. rewrite (digit_not_space c Hc).
    unfold read_sign. now rewrite (digit_not_minus c Hc), (digit_not_plus c Hc). }
  rewrite Hs.
  assert (Hx : read_radix (NilZero.string_of_uint (N.to_uint q)
                           ++ String "." tail)
               = (false, (NilZero.string_of_uint (N.to_uint q)
                          ++ String "." tail)%string)).
  { rewrite E. cbn [append]. unfold read_radix.
    destruct rest as [|x rest']; cbn [append].
    - rewrite (not_radix_mark "."); [now rewrite andb_false_r|now right].
    - cbn [all_digits] in Hr. apply andb_prop in Hr as [Hx _].
      rewrite (not_radix_mark x); [now rewrite andb_false_r|now left]. }
  rewrite Hx.
  rewrite take_while_digits by (now rewrite E).
  rewrite E at 1. rewrite string_of_N_empty_nil, NilEmpty.usu.
  cbn [option_map]. rewrite DecimalN.Unsigned.of_to.
  unfold q. rewrite Z2N.id by (apply Z.div_pos; lia). reflexivity.
Qed.

Lemma round_cents (x : R) :
  0 <= x ->
  (0 <= Int_part (x * 100 + / 2))%Z /\
  x * 100 - / 2 < IZR (Int_part (x * 100 + / 2)) <= x * 100 + / 2.
Proof.
  intros Hx. destruct (base_Int_part (x * 100 + / 2)) as [H1 H2].
  split; [|lra].
  apply le_IZR. 
  assert (-1 < IZR (Int_part (x * 100 + / 2))) by lra.
  assert (H0 : (-1 < Int_part (x * 100 + / 2))%Z) by (apply lt_IZR; assumption).
  apply IZR_le. lia.
Qed.

(** X12: the fare stored with a ride is the whole dollars of the
    price, in cents: for an estimate with a price printed from [x],
    not below 0 and below 1e21, it is 100 times the integer part of
    the price, so the cents of the price are left out and the fare is
    at most the price and less than a dollar below it. *)
Theorem farePrice_whole_dollars (marker : MarkerData) (t : Js.number) (x : R) :
  0 <= x < 10 ^ 21 ->
  let cents := Int_part (x * 100 + / 2) in
  farePrice (Marker.annotate marker t (toFixed2 (Js.Fin x)))
    = Js.Fin (IZR (cents / 100) * 100) /\
  IZR cents - 99 <= IZR (cents / 100) * 100 <= IZR cents /\
  x * 100 - / 2 < IZR cents <= x * 100 + / 2.
Proof.
  intros Hx. cbv zeta.
  destruct (round_cents x (proj1 Hx)) as [Hn Hb].
  split; [|split; [|exact Hb]].
  - unfold farePrice. cbn [Marker.price Marker.annotate].
    rewrite toFixed2_nonempty, toFixed2_below by exact Hx.
    unfold fixed2. now rewrite parseInt_render2.
  - pose proof (Z.div_mod (Int_part (x * 100 + / 2)) 100 ltac:(lia)) as D.
    pose proof (Z.mod_pos_bound (Int_part (x * 100 + / 2)) 100 ltac:(lia)) as B.
    rewrite <- mult_IZR, <- minus_IZR. split; apply IZR_le; lia.
Qed.

Lemma farePrice_whole_dollars_witness :
  farePrice (Marker.annotate driver1 (Js.Fin 15) (toFixed2 (Js.Fin 7.5)))
  = Js.Fin (IZR (Int_part (7.5 * 100 + / 2) / 100) * 100).
Proof.
  apply (farePrice_whole_dollars driver1 (Js.Fin 15) 7.5). lra.
Defined.

(** The price ["7.50"] is stored as 700 cents, and the price ["1e+21"]
    as 100 cents. *)
Example farePrice_7_50 :
  farePrice (Marker.annotate driver1 (Js.Fin 15) "7.50") = Js.Fin (7 * 100) /\
  farePrice (Marker.annotate driver1 (Js.Fin 15) "1e+21") = Js.Fin (1 * 100).
Proof. split; reflexivity. Qed.

(** X13: the ride time stored with a ride is the time of the estimate
    rounded to the closest whole minute for a time that is not below
    0, and 0 for a time that is [NaN]. *)
Theorem rideTime_rounds (marker : MarkerData) (p : string) :
  (forall t : R,
     0 <= t ->
     let minutes := rideTime (Marker.annotate marker (Js.Fin t) p) in
     (0 <= minutes)%Z /\ t - / 2 < IZR minutes <= t + / 2) /\
  rideTime (Marker.annotate marker Js.NaN p) = 0%Z.
Proof.
  split; [|reflexivity].
  intros t Ht. cbv zeta. unfold rideTime.
  cbn [Marker.time Marker.annotate truthy_number].
  destruct (Req_dec_T t 0) as [->|N].
  - split; [lia|lra].
  - unfold round. destruct (base_Int_part (t + / 2)) as [H1 H2].
    split; [|lra].
    assert (H : -1 < IZR (Int_part (t + / 2))) by lra.
    apply lt_IZR in H. lia.
Qed.

Lemma rideTime_rounds_witness :
  let minutes := rideTime (Marker.annotate driver1 (Js.Fin 10.6) "5.30") in
  (0 <= minutes)%Z /\ 10.6 - / 2 < IZR minutes <= 10.6 + / 2.
Proof.
  apply (proj1 (rideTime_rounds driver1 "5.30") 10.6). lra.
Defined.

Lemma find_estimates (markers outs : list MarkerData) (selected : Z) :
  Forall2 estimate_of markers outs ->
  match find (fun driver => Z.eqb (Marker.id driver) selected) markers with
  | Some m =>
      exists o,
        find (fun driver => Z.eqb (Marker.id driver) selected) outs = Some o /\
        estimate_of m o
  | None =>
      find (fun driver => Z.eqb (Marker.id driver) selected) outs = None
  end.
Proof.
  induction 1 as [|m o ms os H _ IH]; cbn [find]; [reflexivity|].
  rewrite (estimate_of_id _ _ H).
  destruct (Z.eqb (Marker.id m) selected); [|exact IH].
  now exists o.
Qed.

(** X14: after an accepted call the booking screen finds, for a
    selected driver, the estimate of the first marker with that
    identity, and finds none exactly when the marker list has none. *)
Theorem driverDetails_of_estimates
  (e : Rounding) (key : option string) (k : string) (routing : Routing)
  (markers : list MarkerData) (a b c d : R) (selected : Z) :
  a <> 0 -> b <> 0 -> c <> 0 -> d <> 0 -> credential key = Some k ->
  exists log out,
    calculateDriverTimes e key routing markers
      (Some a) (Some b) (Some c) (Some d) = (log, Returned (Some out)) /\
    match driverDetails markers (Some selected) with
    | Some m =>
        exists o, driverDetails out (Some selected) = Some o /\
                  Marker.id o = selected /\ estimate_of m o
    | None => driverDetails out (Some selected) = None
    end.
Proof.
  intros Ha Hb Hc Hd Hk.
  destruct (tasks_return e k routing a b c d markers 0)
    as (log & out & E & F & _).
  exists log, out.
  split; [apply (calculateDriverTimes_tasks e key k routing markers _ _ _ _
                   a b c d); try (now apply truthy_some); assumption|].
  unfold driverDetails. pose proof (find_estimates markers out selected F) as H.
  destruct (find (fun driver => Z.eqb (Marker.id driver) selected) markers)
    as [m|] eqn:Em; [|exact H].
  destruct H as (o & Eo & Ho). exists o. split; [exact Eo|]. split; [|exact Ho].
  apply find_some in Eo as [_ Eo]. now apply Z.eqb_eq.
Qed.

Lemma driverDetails_of_estimates_witness :
  exists log out,
    calculateDriverTimes exact (Some "key"%string) allEmpty [driver1]
      (Some 37.7749) (Some (-122.4194)) (Some 37.3382) (Some (-121.8863))
      = (log, Returned (Some out)) /\
    exists o, driverDetails out (Some 1%Z) = Some o /\ Marker.id o = 1%Z.
Proof.
  destruct (driverDetails_of_estimates exact (Some "key"%string) "key" allEmpty
              [driver1] 37.7749 (-122.4194) 37.3382 (-121.8863) 1)
    as (log & out & E & H); try lra; try reflexivity.
  exists log, out. split; [exact E|].
  cbn in H. destruct H as (o & Eo & Ei & _). now exists o.
Defined.

(** X15: for one marker, the task whose call fails returns a time that
    is never above the time the task returns when the service answers
    both calls without routes: whenever the second is a number, the
    first is a number not below 0, and they differ by the leg from the
    driver to the rider, (distance(driver, rider) / 40) * 60 minutes,
    which the [catch] leaves out. *)
Theorem catch_estimate_le_geometry
  (e : Rounding) (key : string) (routing routing' : Routing)
  (a b c d : R) (i : nat) (marker : MarkerData) :
  routing i ToUser = Rejected \/ routing i ToDestination = Rejected ->
  (forall l, exists data, routing' i l = Decoded data /\
                          no_features data = true) ->
  exists log out log' out',
    driverTask e key routing a b c d i marker = (log, Returned out) /\
    driverTask e key routing' a b c d i marker = (log', Returned out') /\
    forall g,
      Marker.time out' = Some (Js.Fin g) ->
      exists t u,
        Marker.time out = Some (Js.Fin t) /\
        calculateDistance e (Marker.latitude marker)
          (Marker.longitude marker) a b = Js.Fin u /\
        0 <= t <= g /\ g - t = (u / 40) * 60.
Proof.
  intros H H'.
  destruct (task_rejected e key routing a b c d i marker H) as (log & E).
  destruct (task_geometry e key routing' a b c d i marker H')
    as (log' & out' & E' & G).
  exists log, (estimated e a b c d marker), log', out'.
  split; [exact E|]. split; [exact E'|].
  destruct G as (_ & _ & _ & _ & _ & Ht' & _).
  destruct (estimated_estimate_at e a b c d marker)
    as (_ & _ & _ & _ & _ & Ht & _).
  intros g Hg. rewrite Ht' in Hg. injection Hg as Hg.
  unfold geometry_time, fallback_time in Hg. rewrite Ht.
  destruct (calculateDistance e (Marker.latitude marker)
              (Marker.longitude marker) a b) as [|u] eqn:HU;
    [discriminate|].
  destruct (calculateDistance e a b c d) as [|v] eqn:HV; [discriminate|].
  cbn [Js.add Js.divc Js.mulc] in *. injection Hg as <-.
  pose proof (distance_bound _ _ _ _ _ _ HU).
  pose proof (distance_bound _ _ _ _ _ _ HV).
  exists (v / 40 * 60), u. split; [reflexivity|]. split; [reflexivity|].
  split; lra.
Qed.

Lemma catch_estimate_le_geometry_witness :
  exists log out log' out',
    driverTask exact "key" allRejected 37.7749 (-122.4194) 37.3382 (-121.8863)
               0 driver1 = (log, Returned out) /\
    driverTask exact "key" allEmpty 37.7749 (-122.4194) 37.3382 (-121.8863)
               0 driver1 = (log', Returned out').
Proof.
  destruct (catch_estimate_le_geometry exact "key" allRejected allEmpty
              37.7749 (-122.4194) 37.3382 (-121.8863) 0 driver1)
    as (log & out & log' & out' & E & E' & _).
  - left. reflexivity.
  - intros l. exists empty_body. split; reflexivity.
  - now exists log, out, log', out'.
Defined.
